(** * Fridge inventory: the state handlers and the derived view of [App.tsx]

    The React component [App] keeps one piece of canonical state, the array
    [items], and changes it only through [setItems(prev => ...)].  Every
    handler is therefore embedded as the pure updater it passes to
    [setItems]: a function from the previous array to the next one.  The
    derived list [filteredItems] is a function of the four values the
    [useMemo] depends on.

    Conventions of the embedding:
    - a JavaScript string is a [string] (its UTF-8 bytes); [===] on strings
      is [String.eqb];
    - [quantity] and the day count are numbers that the program only ever
      fills with integers: they are [Z]; the addition of numbers is exact on
      the safe integers (up to [2^53 - 1]), and the laws that equate two sums
      are stated on that range;
    - [String.prototype.toLowerCase] is a builtin that folds every cased
      letter of Unicode; it is not embedded but taken through the interface
      [LowerCasing], which fixes it on ASCII text;
    - [addedDate] is stored by the program as the ISO-8601 text of an
      instant and is only ever read back through [new Date(s).getTime()];
      the field holds that instant, in milliseconds since the epoch;
    - the two sources of non-determinism, [crypto.randomUUID()] and the
      clock, are explicit arguments of the functions that call them. *)

From Stdlib Require Import ZArith List String Ascii Bool Lia DecimalString.
From Stdlib Require Import Sorting.Sorted Sorting.Permutation.
Import ListNotations.

Open Scope string_scope.
Open Scope Z_scope.

(** ** Data model *)

(** Modelled from the spec: the enumeration [Category] of [types.ts], which
    is not among the sources.  [App.tsx] names [MEAT], [VEGETABLE], [FRUIT],
    [SEAFOOD] and [OTHER]. *)
Inductive Category : Type :=
  | MEAT | VEGETABLE | FRUIT | SEAFOOD | OTHER.

(** The state [filterCategory : Category | 'ALL']. *)
Inductive CategoryFilter : Type :=
  | ALL
  | Only (c : Category).

(** [InventoryItem], with the seven fields the component reads and writes. *)
Record InventoryItem : Type := mkItem {
  id : string;
  name : string;
  quantity : Z;
  unit : string;
  category : Category;
  addedDate : Z;
  isDeleted : bool
}.

(** The argument of [handleAddItem]: [Omit<InventoryItem, 'id' | 'addedDate'>].
    The flag [isDeleted] may or may not be supplied by the form. *)
Record NewItem : Type := mkNewItem {
  new_name : string;
  new_quantity : Z;
  new_unit : string;
  new_category : Category;
  new_isDeleted : option bool
}.

Definition Category_eqb (a b : Category) : bool :=
  match a, b with
  | MEAT, MEAT | VEGETABLE, VEGETABLE | FRUIT, FRUIT
  | SEAFOOD, SEAFOOD | OTHER, OTHER => true
  | _, _ => false
  end.

(** Object spread with one overridden field: [{ ...item, quantity: q }] and
    [{ ...item, isDeleted: b }]. *)
Definition with_quantity (item : InventoryItem) (q : Z) : InventoryItem :=
  mkItem (id item) (name item) q (unit item) (category item)
         (addedDate item) (isDeleted item).

Definition with_isDeleted (item : InventoryItem) (b : bool) : InventoryItem :=
  mkItem (id item) (name item) (quantity item) (unit item) (category item)
         (addedDate item) b.

(** ** Inventory store: the updaters handed to [setItems] *)

Definition day_ms : Z := 86400000.

(** The demo data of the load effect; [now] is the reading of [Date.now()]. *)
Definition demoData (now : Z) : list InventoryItem :=
  [ mkItem "1" "全脂牛奶" 1 "L" OTHER (now - day_ms * 1) false;
    mkItem "2" "基围虾" 20 "只" SEAFOOD (now - day_ms * 0) false;
    mkItem "3" "上海青" 3 "把" VEGETABLE (now - day_ms * 4) false;
    mkItem "4" "牛排" 2 "块" MEAT (now - day_ms * 8) false ].

(** [useState<InventoryItem[]>([])]. *)
Definition initialItems : list InventoryItem := [].

Section Load.

(** [JSON.parse] restricted to the values the component can hold: [None]
    stands for the thrown [SyntaxError]. *)
Variable JSON_parse : string -> option (list InventoryItem).

(** The load effect.  [saved] is [localStorage.getItem(STORAGE_KEY)]; the
    test [if (saved)] fails for [null] and for the empty string.  The
    [catch] branch only logs, so the state keeps its initial value. *)
Definition loadItems (now : Z) (saved : option string)
  : list InventoryItem :=
  match saved with
  | Some s =>
      if (s =? "")%string then demoData now
      else match JSON_parse s with
           | Some parsed => parsed
           | None => initialItems
           end
  | None => demoData now
  end.

End Load.

(** The item built by [handleAddItem]: the spread [...newItem] copies the
    fields of the draft, then [id], [addedDate] and [isDeleted] are set, so a
    flag carried by the draft is overridden.  [uuid] is the result of
    [crypto.randomUUID()] and [now] the instant of [new Date()]. *)
Definition createItem (uuid : string) (now : Z) (newItem : NewItem)
  : InventoryItem :=
  mkItem uuid (new_name newItem) (new_quantity newItem) (new_unit newItem)
         (new_category newItem) now false.

Definition handleAddItem (uuid : string) (now : Z) (newItem : NewItem)
    (prev : list InventoryItem) : list InventoryItem :=
  createItem uuid now newItem :: prev.

(** The function mapped over the array by [moveToTrash] ([flag] is [true])
    and by [restoreFromTrash] ([flag] is [false]). *)
Definition markDeleted (id' : string) (flag : bool) (item : InventoryItem)
  : InventoryItem :=
  if (id item =? id')%string then with_isDeleted item flag else item.

Definition moveToTrash (id' : string) (prev : list InventoryItem)
  : list InventoryItem :=
  map (markDeleted id' true) prev.

Definition restoreFromTrash (id' : string) (prev : list InventoryItem)
  : list InventoryItem :=
  map (markDeleted id' false) prev.

Definition deleteForever (id' : string) (prev : list InventoryItem)
  : list InventoryItem :=
  filter (fun item => negb (id item =? id')%string) prev.

(** The function mapped over the array by [handleUpdateQuantity]. *)
Definition updateQuantity (id' : string) (delta : Z) (item : InventoryItem)
  : InventoryItem :=
  if (id item =? id')%string then
    let newQty := quantity item + delta in
    if 0 <? newQty then with_quantity item newQty else item
  else item.

Definition handleUpdateQuantity (id' : string) (delta : Z)
    (prev : list InventoryItem) : list InventoryItem :=
  map (updateQuantity id' delta) prev.

(** ** Freshness *)

(** [getDaysStored], with both instants in milliseconds. *)
Definition getDaysStored (added now : Z) : Z :=
  Z.abs (now - added) / (1000 * 60 * 60 * 24).

(** The object returned by [getFreshnessColor]. *)
Record Freshness : Type := mkFreshness {
  bg : string;
  text : string;
  border : string;
  label : string
}.

Definition FRESH : Freshness :=
  mkFreshness "bg-emerald-50" "text-emerald-600" "border-emerald-100" "新鲜".
Definition MEDIUM : Freshness :=
  mkFreshness "bg-amber-50" "text-amber-600" "border-amber-100" "良".
Definition OLD : Freshness :=
  mkFreshness "bg-rose-50" "text-rose-600" "border-rose-100" "久置".

Definition getFreshnessColor (days : Z) : Freshness :=
  if days <=? 3 then FRESH
  else if days <=? 7 then MEDIUM
  else OLD.

(** ** View projector *)

(** Lower case on ASCII text: [A]..[Z] become [a]..[z], every other
    character is left as it is. *)
Definition lower_ascii (c : ascii) : ascii :=
  let n := nat_of_ascii c in
  if ((65 <=? n) && (n <=? 90))%nat then ascii_of_nat (n + 32) else c.

Fixpoint asciiLowerCase (s : string) : string :=
  match s with
  | EmptyString => EmptyString
  | String c s' => String (lower_ascii c) (asciiLowerCase s')
  end.

(** The text has ASCII characters only: every byte is below 128. *)
Fixpoint is_ascii (s : string) : bool :=
  match s with
  | EmptyString => true
  | String c s' => (nat_of_ascii c <? 128)%nat && is_ascii s'
  end.

(** [String.prototype.toLowerCase].  The builtin folds every cased letter of
    Unicode and looks at the context of a letter (a capital sigma at the end
    of a word), so it is no map over the characters.  The program only
    calls it; the interface keeps the function and what the language fixes
    of it on ASCII text, and the laws of the view hold for every function
    that meets it. *)
Class LowerCasing : Type := {
  toLowerCase : string -> string;
  toLowerCase_ascii :
    forall s, is_ascii s = true -> toLowerCase s = asciiLowerCase s
}.

(** The lower casing that leaves every character outside ASCII as it is: the
    builtin on ASCII text and on text whose other characters have no case.
    The laws are evaluated with it on concrete collections. *)
#[export] Instance asciiLowering : LowerCasing := {|
  toLowerCase := asciiLowerCase;
  toLowerCase_ascii := fun _ _ => eq_refl
|}.

(** [s.includes(sub)]: [sub] starts at some position of [s]. *)
Fixpoint includes (s sub : string) : bool :=
  prefix sub s ||
  match s with
  | EmptyString => false
  | String _ s' => includes s' sub
  end.

Section Sort.

Context {A : Type}.

(** The comparator handed to [Array.prototype.sort]: a positive result
    asks for the first argument to come after the second. *)
Variable compareFn : A -> A -> Z.

(** [Array.prototype.sort] is required to be stable and leaves the
    algorithm to the engine.  It is embedded as insertion from the right,
    where an element is put in front of the first one it does not have to
    follow: elements that compare equal keep their order. *)
Fixpoint insert (x : A) (l : list A) : list A :=
  match l with
  | [] => [x]
  | y :: l' => if compareFn x y <=? 0 then x :: l else y :: insert x l'
  end.

Fixpoint sort (l : list A) : list A :=
  match l with
  | [] => []
  | x :: l' => insert x (sort l')
  end.

End Sort.

(** The comparator of [filteredItems]: [getTime(b) - getTime(a)]. *)
Definition newestFirst (a b : InventoryItem) : Z :=
  addedDate b - addedDate a.

Definition matchesCategory (filterCategory : CategoryFilter)
    (item : InventoryItem) : bool :=
  match filterCategory with
  | ALL => true
  | Only c => Category_eqb (category item) c
  end.

Section View.

Context {L : LowerCasing}.

Definition matchesSearch (searchTerm : string) (item : InventoryItem) : bool :=
  includes (toLowerCase (name item)) (toLowerCase searchTerm).

(** The predicate handed to [items.filter]. *)
Definition isShown (filterCategory : CategoryFilter) (searchTerm : string)
    (showTrash : bool) (item : InventoryItem) : bool :=
  if showTrash then isDeleted item
  else if isDeleted item then false
  else matchesCategory filterCategory item && matchesSearch searchTerm item.

Definition filteredItems (items : list InventoryItem)
    (filterCategory : CategoryFilter) (searchTerm : string)
    (showTrash : bool) : list InventoryItem :=
  sort newestFirst (filter (isShown filterCategory searchTerm showTrash) items).

End View.

(** ** Relations used to state the laws *)

(** Two items agree on every field except possibly [quantity]. *)
Definition same_but_quantity (a b : InventoryItem) : Prop :=
  id b = id a /\ name b = name a /\ unit b = unit a /\
  category b = category a /\ addedDate b = addedDate a /\
  isDeleted b = isDeleted a.

(** Two items agree on every field except possibly [isDeleted]. *)
Definition same_but_isDeleted (a b : InventoryItem) : Prop :=
  id b = id a /\ name b = name a /\ quantity b = quantity a /\
  unit b = unit a /\ category b = category a /\ addedDate b = addedDate a.

(** A list is ordered newest first. *)
Definition newest_first (l : list InventoryItem) : Prop :=
  StronglySorted (fun a b => addedDate b <= addedDate a) l.

(** The items of [l] acquired at the instant [t], in the order of [l]. *)
Definition acquired_at (t : Z) (l : list InventoryItem) : list InventoryItem :=
  filter (fun item => addedDate item =? t) l.

(** [sub] occurs in [s] as a contiguous block. *)
Definition substring_of (sub s : string) : Prop :=
  exists before after, s = before ++ sub ++ after.

(** An ASCII capital letter. *)
Definition is_capital (c : ascii) : bool :=
  ((65 <=? nat_of_ascii c) && (nat_of_ascii c <=? 90))%nat.

(** Two characters are the same letter: the same character, or a capital
    letter and its small letter, 32 places further in ASCII. *)
Definition same_letter (a b : ascii) : bool :=
  (nat_of_ascii a =? nat_of_ascii b)%nat
  || (is_capital a && (nat_of_ascii b =? nat_of_ascii a + 32)%nat)
  || (is_capital b && (nat_of_ascii a =? nat_of_ascii b + 32)%nat).

(** Two texts are equal up to the case of their letters: they have the same
    length and the same letter at every position. *)
Fixpoint same_ignoring_case (a b : string) : bool :=
  match a, b with
  | EmptyString, EmptyString => true
  | String c a', String d b' => same_letter c d && same_ignoring_case a' b'
  | _, _ => false
  end.


(** The name of the item contains the search term, letter case aside. *)
Definition name_contains (searchTerm : string) (item : InventoryItem) : Prop :=
  exists block,
    substring_of block (name item) /\
    same_ignoring_case block searchTerm = true.

(** ** Dates shown in a row *)

(** [String(n)] and the template literal on an integer: its decimal
    digits. *)
Definition String_of_number (n : Z) : string :=
  NilZero.string_of_int (Z.to_int n).

(** The filler of [padStart]: the first [n] characters of [pad] repeated;
    [cur] is what is left of the copy being used. *)
Fixpoint filler (n : nat) (cur pad : string) : string :=
  match n with
  | O => EmptyString
  | S n' =>
      match cur with
      | String c cur' => String c (filler n' cur' pad)
      | EmptyString =>
          match pad with
          | String c pad' => String c (filler n' pad' pad)
          | EmptyString => EmptyString
          end
      end
  end.

(** [s.padStart(targetLength, padString)]. *)
Definition padStart (s : string) (targetLength : nat) (padString : string)
  : string :=
  (filler (targetLength - String.length s) padString padString ++ s)%string.

(** [formatDate].  The three readings of the [Date] object, which depend on
    the time zone of the browser, are its arguments: [year] is
    [getFullYear()], [month] is [getMonth()] (0 for January) and [day] is
    [getDate()]. *)
Definition formatDate (year month day : Z) : string :=
  let month' := padStart (String_of_number (month + 1)) 2 "0" in
  let day' := padStart (String_of_number day) 2 "0" in
  (String_of_number year ++ month' ++ day')%string.

(** ** The buttons of a row *)

(** The buttons rendered in the row of an item of [filteredItems]. *)
Inductive RowButton : Type :=
  | Minus | Plus | Trash | Restore | DeleteForever.

(** The trash view renders the restore and delete-forever buttons, the
    normal view the two quantity buttons and the trash button. *)
Definition rowButtons (showTrash : bool) : list RowButton :=
  if showTrash then [Restore; DeleteForever] else [Minus; Plus; Trash].

(** The [onClick] of a button in the row of [item], as an updater of the
    array. *)
Definition onClick (button : RowButton) (item : InventoryItem)
    (prev : list InventoryItem) : list InventoryItem :=
  match button with
  | Minus => handleUpdateQuantity (id item) (-1) prev
  | Plus => handleUpdateQuantity (id item) 1 prev
  | Trash => moveToTrash (id item) prev
  | Restore => restoreFromTrash (id item) prev
  | DeleteForever => deleteForever (id item) prev
  end.

(** ** Invariants of the collection *)

(** No two items of the collection share an id. *)
Definition unique_ids (items : list InventoryItem) : Prop :=
  NoDup (map id items).

(** Every item of the collection has a quantity of at least 1. *)
Definition quantities_positive (items : list InventoryItem) : Prop :=
  Forall (fun item => 1 <= quantity item) items.

(** The time between two instants, whichever comes first. *)
Definition elapsed (added now : Z) : Z := Z.abs (now - added).

(** [Number.MAX_SAFE_INTEGER]: up to it, in both directions, every integer
    is a number and the sum of two numbers is exact when it stays in the
    range. *)
Definition MAX_SAFE_INTEGER : Z := 2 ^ 53 - 1.

Definition safe_integer (n : Z) : Prop :=
  - MAX_SAFE_INTEGER <= n <= MAX_SAFE_INTEGER.

(** ** Laws of the inventory store *)

Section MapLaws.

Context {A B : Type}.

(** A relation that holds between every element and its image holds
    position by position between a list and its [map]. *)
Lemma Forall2_map_intro (R : A -> B -> Prop) (f : A -> B) (l : list A) :
  (forall x, In x l -> R x (f x)) -> Forall2 R l (map f l).
Proof.
  induction l as [| x l IH]; intros H; simpl; constructor.
  - apply H; now left.
  - apply IH; intros y Hy; apply H; now right.
Qed.

End MapLaws.

(** A map that fixes every element of the list fixes the list. *)
Lemma map_fixed {A : Type} (f : A -> A) (l : list A) :
  (forall x, In x l -> f x = x) -> map f l = l.
Proof.
  intros H; rewrite <- (map_id l) at 2; now apply map_ext_in.
Qed.

Lemma updateQuantity_other id' delta item :
  id item <> id' -> updateQuantity id' delta item = item.
Proof.
  intros Hne; unfold updateQuantity.
  destruct (String.eqb_spec (id item) id'); [contradiction | reflexivity].
Qed.

Lemma updateQuantity_applied id' delta item :
  id item = id' -> 0 < quantity item + delta ->
  updateQuantity id' delta item = with_quantity item (quantity item + delta).
Proof.
  intros Heq Hpos; unfold updateQuantity.
  rewrite (proj2 (String.eqb_eq _ _) Heq); cbv zeta.
  now rewrite (proj2 (Z.ltb_lt _ _) Hpos).
Qed.

Lemma updateQuantity_rejected id' delta item :
  quantity item + delta <= 0 -> updateQuantity id' delta item = item.
Proof.
  intros Hle; unfold updateQuantity.
  destruct (id item =? id')%string; [cbv zeta | reflexivity].
  now rewrite (proj2 (Z.ltb_ge _ _) Hle).
Qed.

(** Whatever the outcome, the mapped function touches [quantity] only. *)
Lemma updateQuantity_frame id' delta item :
  same_but_quantity item (updateQuantity id' delta item).
Proof.
  unfold updateQuantity, same_but_quantity.
  destruct (id item =? id')%string; cbv zeta;
    [destruct (0 <? quantity item + delta) |]; simpl; repeat split.
Qed.

(** An item whose quantity is not positive after the update is the old
    item itself. *)
Lemma updateQuantity_floor id' delta item :
  quantity (updateQuantity id' delta item) <= 0 ->
  updateQuantity id' delta item = item.
Proof.
  unfold updateQuantity.
  destruct (id item =? id')%string; cbv zeta; [| reflexivity].
  destruct (Z.ltb_spec 0 (quantity item + delta)); [simpl; lia | reflexivity].
Qed.

(** C1: [handleUpdateQuantity] never stores a quantity [<= 0] of its own
    making.  Position by position: a result item with a non-positive
    quantity is the untouched old item; an item with the given id whose
    [quantity + delta] is positive gets exactly that quantity; one whose
    [quantity + delta] is not positive is kept as it was.  When the update
    is rejected for every item with that id, the whole collection is
    returned exactly as it was. *)
Theorem handleUpdateQuantity_quantity_floor :
  forall (id' : string) (delta : Z) (prev : list InventoryItem),
    Forall2 (fun old new =>
               (quantity new <= 0 -> new = old) /\
               (id old = id' -> 0 < quantity old + delta ->
                quantity new = quantity old + delta) /\
               (id old = id' -> quantity old + delta <= 0 -> new = old))
            prev (handleUpdateQuantity id' delta prev) /\
    ((forall item, In item prev -> id item = id' ->
                   quantity item + delta <= 0) ->
     handleUpdateQuantity id' delta prev = prev).
Proof.
  intros id' delta prev; unfold handleUpdateQuantity; split.
  - apply Forall2_map_intro; intros item _; repeat split.
    + apply updateQuantity_floor.
    + intros Heq Hpos; now rewrite updateQuantity_applied.
    + intros _ Hle; now apply updateQuantity_rejected.
  - intros Hrej; apply map_fixed; intros item Hin.
    destruct (String.eqb_spec (id item) id') as [Heq | Hne].
    + apply updateQuantity_rejected; now apply Hrej.
    + now apply updateQuantity_other.
Qed.

(** The seed item with quantity 1: [-1] is rejected and the collection is
    returned as it was. *)
Lemma handleUpdateQuantity_quantity_floor_witness :
  handleUpdateQuantity "1" (-1) (demoData 0) = demoData 0.
Proof.
  apply (proj2 (handleUpdateQuantity_quantity_floor "1" (-1) (demoData 0))).
  intros item Hin Heq; simpl in Hin.
  repeat (destruct Hin as [<- | Hin]; [simpl in *; try lia; discriminate |]).
  contradiction.
Defined.

(** C10: frame of [handleUpdateQuantity].  Position by position, the new
    item agrees with the old one on [id], [name], [unit], [category],
    [addedDate] and [isDeleted], and an item with another id is the old item
    itself; the collection keeps its length. *)
Theorem handleUpdateQuantity_frame :
  forall (id' : string) (delta : Z) (prev : list InventoryItem),
    Forall2 (fun old new =>
               same_but_quantity old new /\ (id old <> id' -> new = old))
            prev (handleUpdateQuantity id' delta prev) /\
    List.length (handleUpdateQuantity id' delta prev) = List.length prev.
Proof.
  intros id' delta prev; unfold handleUpdateQuantity; split.
  - apply Forall2_map_intro; intros item _; split.
    + apply updateQuantity_frame.
    + apply updateQuantity_other.
  - apply length_map.
Qed.

(** Adding 1 to the seed item ["1"] yields quantity 2 there and leaves the
    other three items alone. *)
Lemma handleUpdateQuantity_frame_witness :
  Forall2 (fun old new =>
             same_but_quantity old new /\ (id old <> "1" -> new = old))
          (demoData 0) (handleUpdateQuantity "1" 1 (demoData 0)) /\
  map quantity (handleUpdateQuantity "1" 1 (demoData 0)) = [2; 20; 3; 2].
Proof.
  split.
  - exact (proj1 (handleUpdateQuantity_frame "1" 1 (demoData 0))).
  - reflexivity.
Defined.

(** C3, as the code has it: [handleUpdateQuantity] does not consult
    [isDeleted].  An item with the given id whose [quantity + delta] is
    positive gets that quantity whether it is active or in the trash, and
    its flag stays what it was. *)
Theorem handleUpdateQuantity_ignores_isDeleted :
  forall (id' : string) (delta : Z) (prev : list InventoryItem),
    Forall2 (fun old new =>
               id old = id' -> 0 < quantity old + delta ->
               quantity new = quantity old + delta /\
               isDeleted new = isDeleted old)
            prev (handleUpdateQuantity id' delta prev).
Proof.
  intros id' delta prev; unfold handleUpdateQuantity.
  apply Forall2_map_intro; intros item _ Heq Hpos.
  now rewrite updateQuantity_applied.
Qed.

Lemma handleUpdateQuantity_ignores_isDeleted_witness :
  Forall2 (fun old new =>
             id old = "4" -> 0 < quantity old + 1 ->
             quantity new = quantity old + 1 /\
             isDeleted new = isDeleted old)
          (moveToTrash "4" (demoData 0))
          (handleUpdateQuantity "4" 1 (moveToTrash "4" (demoData 0))).
Proof.
  exact (handleUpdateQuantity_ignores_isDeleted
           "4" 1 (moveToTrash "4" (demoData 0))).
Defined.

(** C3 fails as stated: a collection whose only item with id ["4"] is in the
    trash is changed by [handleUpdateQuantity "4" 1]. *)
Lemma handleUpdateQuantity_deleted_counterexample :
  let prev := [mkItem "4" "牛排" 2 "块" MEAT 0 true] in
  (forall item, In item prev -> id item = "4" -> isDeleted item = true) /\
  handleUpdateQuantity "4" 1 prev = [mkItem "4" "牛排" 3 "块" MEAT 0 true] /\
  handleUpdateQuantity "4" 1 prev <> prev.
Proof.
  cbv zeta; repeat split.
  - intros item [<- | []] _; reflexivity.
  - discriminate.
Qed.

(** Marking twice is marking with the last flag. *)
Lemma markDeleted_twice id' flag flag' item :
  markDeleted id' flag (markDeleted id' flag' item) = markDeleted id' flag item.
Proof.
  unfold markDeleted.
  destruct (id item =? id')%string eqn:E; simpl; now rewrite E.
Qed.

Lemma markDeleted_other id' flag item :
  id item <> id' -> markDeleted id' flag item = item.
Proof.
  intros Hne; unfold markDeleted.
  destruct (String.eqb_spec (id item) id'); [contradiction | reflexivity].
Qed.

Lemma markDeleted_same_flag id' item :
  markDeleted id' (isDeleted item) item = item.
Proof.
  unfold markDeleted; destruct (id item =? id')%string; [| reflexivity].
  now destruct item.
Qed.

Lemma markDeleted_frame id' flag item :
  same_but_isDeleted item (markDeleted id' flag item) /\
  (id item = id' -> isDeleted (markDeleted id' flag item) = flag).
Proof.
  unfold markDeleted, same_but_isDeleted.
  destruct (String.eqb_spec (id item) id'); simpl; repeat split; congruence.
Qed.

(** [moveToTrash] followed by [restoreFromTrash] is [restoreFromTrash]. *)
Lemma restoreFromTrash_moveToTrash id' prev :
  restoreFromTrash id' (moveToTrash id' prev) = restoreFromTrash id' prev.
Proof.
  unfold restoreFromTrash, moveToTrash; rewrite map_map.
  apply map_ext; intros item; apply markDeleted_twice.
Qed.

(** C9: round trip and idempotence.  After [moveToTrash id] then
    [restoreFromTrash id], position by position the item agrees with the
    old one on every field but [isDeleted], an item with that id has
    [isDeleted = false], and an item with another id is the old item itself;
    on a collection where the items with that id were active the round trip
    gives the collection back.  Each of the two updaters applied twice
    equals itself applied once. *)
Theorem moveToTrash_restoreFromTrash_round_trip :
  forall (id' : string) (prev : list InventoryItem),
    Forall2 (fun old new =>
               same_but_isDeleted old new /\
               (id old = id' -> isDeleted new = false) /\
               (id old <> id' -> new = old))
            prev (restoreFromTrash id' (moveToTrash id' prev)) /\
    ((forall item, In item prev -> id item = id' -> isDeleted item = false) ->
     restoreFromTrash id' (moveToTrash id' prev) = prev) /\
    moveToTrash id' (moveToTrash id' prev) = moveToTrash id' prev /\
    restoreFromTrash id' (restoreFromTrash id' prev) = restoreFromTrash id' prev.
Proof.
  intros id' prev; repeat split.
  - rewrite restoreFromTrash_moveToTrash; unfold restoreFromTrash.
    apply Forall2_map_intro; intros item _.
    destruct (markDeleted_frame id' false item) as [Hsame Hflag].
    split; [exact Hsame | split; [exact Hflag | apply markDeleted_other]].
  - intros Hactive; rewrite restoreFromTrash_moveToTrash.
    unfold restoreFromTrash; apply map_fixed; intros item Hin.
    destruct (String.eqb_spec (id item) id') as [Heq | Hne].
    + rewrite <- (Hactive item Hin Heq); apply markDeleted_same_flag.
    + now apply markDeleted_other.
  - unfold moveToTrash; rewrite map_map; apply map_ext; intros item.
    apply markDeleted_twice.
  - unfold restoreFromTrash; rewrite map_map; apply map_ext; intros item.
    apply markDeleted_twice.
Qed.

(** On the seed data every item is active, so trashing and restoring the
    item ["4"] gives the seed data back. *)
Lemma moveToTrash_restoreFromTrash_round_trip_witness :
  restoreFromTrash "4" (moveToTrash "4" (demoData 0)) = demoData 0.
Proof.
  apply (proj1 (proj2 (moveToTrash_restoreFromTrash_round_trip
                         "4" (demoData 0)))).
  intros item Hin _; simpl in Hin.
  repeat (destruct Hin as [<- | Hin]; [reflexivity |]).
  contradiction.
Defined.

(** C4, as the code has it: [handleAddItem] puts exactly one new item in
    front of the previous collection, which is kept as it was.  The new item
    has [isDeleted = false], the draft's name, quantity, unit and category,
    [addedDate] equal to the instant of creation and, as its id, the value
    returned by [crypto.randomUUID()].  The id is not compared with the ids
    in use: it differs from the id of every previous item exactly when the
    returned value is not the id of a previous item. *)
Theorem handleAddItem_prepends_item_with_drawn_id :
  forall (uuid : string) (now : Z) (newItem : NewItem)
         (prev : list InventoryItem),
    exists item,
      handleAddItem uuid now newItem prev = item :: prev /\
      isDeleted item = false /\
      quantity item = new_quantity newItem /\
      name item = new_name newItem /\
      unit item = new_unit newItem /\
      category item = new_category newItem /\
      addedDate item = now /\
      id item = uuid /\
      ((forall old, In old prev -> id old <> id item)
       <-> ~ In uuid (map id prev)) /\
      List.length (handleAddItem uuid now newItem prev)
      = S (List.length prev).
Proof.
  intros uuid now newItem prev; exists (createItem uuid now newItem).
  repeat match goal with |- _ /\ _ => split end; try reflexivity.
  simpl; split.
  - intros Hdistinct Hin; apply in_map_iff in Hin.
    destruct Hin as [old [Heq Hold]]; exact (Hdistinct old Hold Heq).
  - intros Hfresh old Hin Heq; apply Hfresh.
    rewrite <- Heq; now apply in_map.
Qed.

(** A draft added to the seed data under an identifier that is not in use. *)
Lemma handleAddItem_prepends_item_with_drawn_id_witness :
  exists item,
    handleAddItem "9b2e4c1a-6f0d-4e7b-8a35-1c2d3e4f5a6b" 5
                  (mkNewItem "egg" 6 "pcs" OTHER None) (demoData 0)
    = item :: demoData 0 /\
    forall old, In old (demoData 0) -> id old <> id item.
Proof.
  destruct (handleAddItem_prepends_item_with_drawn_id
              "9b2e4c1a-6f0d-4e7b-8a35-1c2d3e4f5a6b" 5
              (mkNewItem "egg" 6 "pcs" OTHER None) (demoData 0))
    as [item [Hadd [_ [_ [_ [_ [_ [_ [_ [Hdistinct _]]]]]]]]]].
  exists item; split; [exact Hadd |].
  apply Hdistinct; simpl; intros H.
  repeat (destruct H as [H | H]; [discriminate H |]); exact H.
Defined.

(** C4 fails as stated: when [crypto.randomUUID()] returns the same value
    for two drafts, the second item is stored under the id of the first. *)
Lemma handleAddItem_duplicate_id_counterexample :
  let uuid := "9b2e4c1a-6f0d-4e7b-8a35-1c2d3e4f5a6b" in
  let prev := handleAddItem uuid 5 (mkNewItem "egg" 6 "pcs" OTHER None)
                            (demoData 0) in
  exists item old,
    handleAddItem uuid 6 (mkNewItem "rice" 1 "kg" OTHER None) prev
    = item :: prev /\
    In old prev /\ id old = id item.
Proof.
  cbv zeta; eexists; eexists; split; [reflexivity | split].
  - now left.
  - reflexivity.
Qed.




(** ** The load effect *)

(** C2, as the code has it: a stored text that parses is adopted as it is;
    [null] and the empty text give the demo data; a non-empty text that does
    not parse is only logged, and the collection keeps its initial value,
    the empty array. *)
Theorem loadItems_cases :
  forall (JSON_parse : string -> option (list InventoryItem)) (now : Z),
    (forall s parsed,
        s <> "" -> JSON_parse s = Some parsed ->
        loadItems JSON_parse now (Some s) = parsed) /\
    loadItems JSON_parse now None = demoData now /\
    loadItems JSON_parse now (Some "") = demoData now /\
    (forall s,
        s <> "" -> JSON_parse s = None ->
        loadItems JSON_parse now (Some s) = []).
Proof.
  intros JSON_parse now; repeat split.
  - intros s parsed Hne Hparse; unfold loadItems.
    destruct (String.eqb_spec s ""); [contradiction |].
    now rewrite Hparse.
  - intros s Hne Hparse; unfold loadItems.
    destruct (String.eqb_spec s ""); [contradiction |].
    now rewrite Hparse.
Qed.

(** A parser that accepts the text of the empty array and nothing else, as
    [JSON.parse] does on the two texts used below. *)
Lemma loadItems_cases_witness :
  let parse := fun s : string => if (s =? "[]")%string then Some [] else None in
  loadItems parse 0 (Some "[]") = [] /\
  loadItems parse 0 (Some "{") = [].
Proof.
  cbv zeta.
  pose proof (loadItems_cases
                (fun s : string => if (s =? "[]")%string then Some [] else None)
                0) as [Hvalid [_ [_ Hbroken]]].
  split.
  - apply Hvalid; [discriminate | reflexivity].
  - apply Hbroken; [discriminate | reflexivity].
Defined.

(** C2 fails as stated: the stored text ["{"] does not parse, and the
    collection is then the empty array and not the demo data. *)
Lemma loadItems_unparseable_counterexample :
  let parse := fun s : string => if (s =? "[]")%string then Some [] else None in
  parse "{" = None /\
  loadItems parse 0 (Some "{") = [] /\
  loadItems parse 0 (Some "{") <> demoData 0.
Proof.
  cbv zeta; repeat split; discriminate.
Qed.

(** ** Freshness tiers *)

(** C8: [getFreshnessColor] gives [FRESH] for 0 to 3 days, [MEDIUM] for 4 to
    7 days and [OLD] from 8 days on; in particular at 3, 4, 7 and 8.  The
    three results are pairwise distinct and every day count [>= 0] falls in
    exactly one of the three ranges. *)
Theorem getFreshnessColor_tiers :
  (forall d, 0 <= d <= 3 -> getFreshnessColor d = FRESH) /\
  (forall d, 4 <= d <= 7 -> getFreshnessColor d = MEDIUM) /\
  (forall d, 8 <= d -> getFreshnessColor d = OLD) /\
  getFreshnessColor 3 = FRESH /\
  getFreshnessColor 4 = MEDIUM /\
  getFreshnessColor 7 = MEDIUM /\
  getFreshnessColor 8 = OLD /\
  FRESH <> MEDIUM /\ MEDIUM <> OLD /\ FRESH <> OLD /\
  (forall d, 0 <= d ->
             (getFreshnessColor d = FRESH <-> d <= 3) /\
             (getFreshnessColor d = MEDIUM <-> 4 <= d <= 7) /\
             (getFreshnessColor d = OLD <-> 8 <= d)).
Proof.
  assert (Hfm : FRESH <> MEDIUM) by discriminate.
  assert (Hmo : MEDIUM <> OLD) by discriminate.
  assert (Hfo : FRESH <> OLD) by discriminate.
  repeat match goal with |- _ /\ _ => split end;
    try reflexivity; try assumption.
  - intros d Hd; unfold getFreshnessColor.
    destruct (Z.leb_spec d 3); [reflexivity | lia].
  - intros d Hd; unfold getFreshnessColor.
    destruct (Z.leb_spec d 3); [lia |].
    destruct (Z.leb_spec d 7); [reflexivity | lia].
  - intros d Hd; unfold getFreshnessColor.
    destruct (Z.leb_spec d 3); [lia |].
    destruct (Z.leb_spec d 7); [lia | reflexivity].
  - intros d Hd; unfold getFreshnessColor.
    destruct (Z.leb_spec d 3); [| destruct (Z.leb_spec d 7)];
      (split; [| split]); (split; intros Hres);
      first [lia | reflexivity | exfalso; congruence].
Qed.

Lemma getFreshnessColor_tiers_witness :
  getFreshnessColor 0 = FRESH /\ getFreshnessColor 5 = MEDIUM /\
  getFreshnessColor 30 = OLD.
Proof.
  destruct getFreshnessColor_tiers as [Hfresh [Hmedium [Hold _]]].
  split; [apply Hfresh; lia | split; [apply Hmedium; lia | apply Hold; lia]].
Defined.

(** ** Laws of the stable sort *)

Section SortLaws.

Context {A : Type}.
Variable compareFn : A -> A -> Z.

Lemma insert_Permutation (x : A) (l : list A) :
  Permutation (insert compareFn x l) (x :: l).
Proof.
  induction l as [| y l IH]; simpl; [reflexivity |].
  destruct (compareFn x y <=? 0); [reflexivity |].
  rewrite IH; apply perm_swap.
Qed.

Lemma sort_Permutation (l : list A) : Permutation (sort compareFn l) l.
Proof.
  induction l as [| x l IH]; simpl; [reflexivity |].
  rewrite insert_Permutation; now constructor.
Qed.

Lemma sort_In (x : A) (l : list A) : In x (sort compareFn l) <-> In x l.
Proof.
  split; apply Permutation_in;
    [| symmetry]; apply sort_Permutation.
Qed.

End SortLaws.

Lemma newestFirst_le a b : newestFirst a b <= 0 <-> addedDate b <= addedDate a.
Proof. unfold newestFirst; lia. Qed.

Lemma insert_newest_first x l :
  newest_first l -> newest_first (insert newestFirst x l).
Proof.
  unfold newest_first; induction l as [| y l IH]; intros Hs; simpl.
  - constructor; constructor.
  - destruct (Z.leb_spec (newestFirst x y) 0) as [Hle | Hgt].
    + apply newestFirst_le in Hle.
      constructor; [exact Hs |].
      constructor; [exact Hle |].
      apply StronglySorted_inv in Hs; destruct Hs as [_ Hall].
      eapply Forall_impl; [| exact Hall]; simpl; intros z Hz; lia.
    + apply StronglySorted_inv in Hs; destruct Hs as [Hs Hall].
      constructor; [now apply IH |].
      eapply Permutation_Forall;
        [symmetry; apply insert_Permutation |].
      constructor; [| exact Hall].
      unfold newestFirst in Hgt; lia.
Qed.

Lemma sort_newest_first l : newest_first (sort newestFirst l).
Proof.
  induction l as [| x l IH]; simpl.
  - constructor.
  - now apply insert_newest_first.
Qed.

Lemma acquired_at_cons t x l :
  acquired_at t (x :: l)
  = if addedDate x =? t then x :: acquired_at t l else acquired_at t l.
Proof. reflexivity. Qed.

(** Insertion never carries an item past one acquired at the same instant. *)
Lemma acquired_at_insert t x l :
  acquired_at t (insert newestFirst x l) = acquired_at t (x :: l).
Proof.
  induction l as [| y l IH]; cbn [insert]; [reflexivity |].
  destruct (Z.leb_spec (newestFirst x y) 0) as [Hle | Hgt]; [reflexivity |].
  rewrite (acquired_at_cons t y), IH, !acquired_at_cons.
  unfold newestFirst in Hgt.
  destruct (Z.eqb_spec (addedDate x) t), (Z.eqb_spec (addedDate y) t);
    try reflexivity; lia.
Qed.

Lemma acquired_at_sort t l :
  acquired_at t (sort newestFirst l) = acquired_at t l.
Proof.
  induction l as [| x l IH]; cbn [sort]; [reflexivity |].
  now rewrite acquired_at_insert, !acquired_at_cons, IH.
Qed.

(** The items acquired at the instant of the head start with the head. *)
Lemma acquired_at_head x l :
  acquired_at (addedDate x) (x :: l) = x :: acquired_at (addedDate x) l.
Proof. simpl; now rewrite Z.eqb_refl. Qed.

Lemma newest_first_head_max x l y :
  newest_first (x :: l) -> In y (x :: l) -> addedDate y <= addedDate x.
Proof.
  intros Hs [<- | Hin]; [lia |].
  apply StronglySorted_inv in Hs; destruct Hs as [_ Hall].
  rewrite Forall_forall in Hall; now apply Hall.
Qed.

(** Two lists ordered newest first that hold, for every instant, the same
    items in the same order are the same list: the order chosen by a stable
    sort does not depend on the algorithm. *)
Lemma newest_first_stable_unique l1 :
  forall l2,
    newest_first l1 -> newest_first l2 ->
    (forall t, acquired_at t l1 = acquired_at t l2) -> l1 = l2.
Proof.
  induction l1 as [| a l1 IH]; intros [| b l2] Hs1 Hs2 Hsame.
  - reflexivity.
  - specialize (Hsame (addedDate b)); rewrite acquired_at_head in Hsame.
    discriminate Hsame.
  - specialize (Hsame (addedDate a)); rewrite acquired_at_head in Hsame.
    discriminate Hsame.
  - assert (Hab : addedDate a = addedDate b).
    { assert (Ha : exists y, In y (b :: l2) /\ addedDate y = addedDate a).
      { pose proof (Hsame (addedDate a)) as E; rewrite acquired_at_head in E.
        exists a; apply (f_equal (fun l => In a l)) in E.
        assert (Hin : In a (acquired_at (addedDate a) (b :: l2)))
          by (rewrite <- E; now left).
        apply filter_In in Hin; split; [apply Hin | reflexivity]. }
      assert (Hb : exists y, In y (a :: l1) /\ addedDate y = addedDate b).
      { pose proof (Hsame (addedDate b)) as E; rewrite acquired_at_head in E.
        exists b; apply (f_equal (fun l => In b l)) in E.
        assert (Hin : In b (acquired_at (addedDate b) (a :: l1)))
          by (rewrite E; now left).
        apply filter_In in Hin; split; [apply Hin | reflexivity]. }
      destruct Ha as [y [Hy Ey]], Hb as [z [Hz Ez]].
      pose proof (newest_first_head_max _ _ _ Hs2 Hy).
      pose proof (newest_first_head_max _ _ _ Hs1 Hz).
      lia. }
    assert (Eab : a = b).
    { pose proof (Hsame (addedDate a)) as E.
      rewrite acquired_at_head in E; rewrite Hab in E at 2.
      rewrite Hab, acquired_at_head in E; now injection E. }
    subst b; f_equal.
    apply StronglySorted_inv in Hs1, Hs2.
    apply IH; [apply Hs1 | apply Hs2 |].
    intros t; specialize (Hsame t); simpl in Hsame.
    destruct (addedDate a =? t); [now injection Hsame | exact Hsame].
Qed.

(** ** Laws of the text search *)

Lemma prefix_iff (sub s : string) :
  prefix sub s = true <-> exists after, s = (sub ++ after)%string.
Proof.
  revert s; induction sub as [| c sub IH]; intros s.
  - split; [intros _; now exists s | intros _; now destruct s].
  - destruct s as [| d s]; simpl.
    + split; [discriminate | intros [after E]; discriminate E].
    + destruct (ascii_dec c d) as [<- | Hne].
      * rewrite IH; split; intros [after E]; exists after.
        -- now rewrite E.
        -- now injection E.
      * split; [discriminate |].
        intros [after E]; injection E as Ecd _; congruence.
Qed.

(** [includes] decides [substring_of]. *)
Lemma includes_iff (s sub : string) :
  includes s sub = true <-> substring_of sub s.
Proof.
  unfold substring_of; induction s as [| c s IH]; cbn [includes].
  - rewrite orb_false_r, prefix_iff; split.
    + intros [after E]; now exists EmptyString, after.
    + intros [before [after E]].
      destruct before; [now exists after | discriminate E].
  - rewrite orb_true_iff, prefix_iff, IH; split.
    + intros [[after E] | [before [after E]]].
      * now exists EmptyString, after.
      * exists (String c before), after; simpl; now rewrite E.
    + intros [[| d before] [after E]].
      * left; now exists after.
      * right; exists before, after; simpl in E; now injection E.
Qed.

Lemma includes_empty (s : string) : includes s "" = true.
Proof. apply includes_iff; now exists EmptyString, s. Qed.

Lemma asciiLowerCase_app (a b : string) :
  asciiLowerCase (a ++ b) = (asciiLowerCase a ++ asciiLowerCase b)%string.
Proof. induction a as [| c a IH]; simpl; [reflexivity | now rewrite IH]. Qed.

(** A split of the lowered text comes from a split of the text. *)
Lemma asciiLowerCase_split (x y : string) :
  forall s,
    asciiLowerCase s = (x ++ y)%string ->
    exists a b,
      s = (a ++ b)%string /\ asciiLowerCase a = x /\ asciiLowerCase b = y.
Proof.
  induction x as [| c x IH]; intros s E; simpl in E.
  - now exists EmptyString, s.
  - destruct s as [| d s]; [discriminate E |].
    simpl in E; injection E as Ec Es.
    destruct (IH s Es) as [a [b [-> [Ea Eb]]]].
    exists (String d a), b; simpl; now rewrite Ec, Ea.
Qed.

Lemma is_ascii_app (a b : string) :
  is_ascii (a ++ b) = is_ascii a && is_ascii b.
Proof.
  induction a as [| c a IH]; simpl; [reflexivity |].
  now rewrite IH, andb_assoc.
Qed.

(** A test that succeeds on the 256 by 256 pairs of character codes
    succeeds on every pair of characters. *)
Lemma checked_on_all_characters (p : ascii -> ascii -> bool) :
  forallb (fun m =>
             forallb (fun n => p (ascii_of_nat m) (ascii_of_nat n))
                     (seq 0 256))
          (seq 0 256) = true ->
  forall c d, p c d = true.
Proof.
  intros Hall c d; rewrite forallb_forall in Hall.
  rewrite <- (ascii_nat_embedding c), <- (ascii_nat_embedding d).
  assert (Hc : In (nat_of_ascii c) (seq 0 256))
    by (apply in_seq; pose proof (nat_ascii_bounded c); lia).
  assert (Hd : In (nat_of_ascii d) (seq 0 256))
    by (apply in_seq; pose proof (nat_ascii_bounded d); lia).
  specialize (Hall _ Hc); rewrite forallb_forall in Hall.
  exact (Hall _ Hd).
Qed.

(** Two characters are the same letter exactly when they have the same
    lower case. *)
Lemma same_letter_iff (c d : ascii) :
  same_letter c d = true <-> lower_ascii c = lower_ascii d.
Proof.
  rewrite <- Ascii.eqb_eq.
  assert (H : Bool.eqb (same_letter c d)
                       (Ascii.eqb (lower_ascii c) (lower_ascii d)) = true).
  { apply (checked_on_all_characters
             (fun c d => Bool.eqb (same_letter c d)
                                  (Ascii.eqb (lower_ascii c) (lower_ascii d)))).
    vm_compute; reflexivity. }
  apply eqb_prop in H; now rewrite H.
Qed.

Lemma same_ignoring_case_iff (a b : string) :
  same_ignoring_case a b = true <-> asciiLowerCase a = asciiLowerCase b.
Proof.
  revert b; induction a as [| c a IH]; intros [| d b]; simpl.
  - split; reflexivity.
  - split; discriminate.
  - split; discriminate.
  - rewrite andb_true_iff, same_letter_iff, IH; split.
    + intros [-> ->]; reflexivity.
    + intros E; injection E; auto.
Qed.

(** On ASCII text, the lowered name includes the lowered term exactly when
    a block of the name is the term up to the case of the letters. *)
Lemma asciiLowerCase_includes_iff (text term : string) :
  substring_of (asciiLowerCase term) (asciiLowerCase text)
  <-> exists block,
      substring_of block text /\ same_ignoring_case block term = true.
Proof.
  unfold substring_of; split.
  - intros [before [after E]].
    destruct (asciiLowerCase_split _ _ _ E) as [a [rest [En [Ea Erest]]]].
    destruct (asciiLowerCase_split _ _ _ Erest) as [block [c [Er [Eb Ec]]]].
    exists block; split; [| now apply same_ignoring_case_iff].
    exists a, c; now rewrite En, Er.
  - intros [block [[before [after En]] Eb]].
    apply same_ignoring_case_iff in Eb.
    exists (asciiLowerCase before), (asciiLowerCase after).
    now rewrite En, !asciiLowerCase_app, Eb.
Qed.

Lemma toLowerCase_empty {L : LowerCasing} : toLowerCase "" = "".
Proof. now rewrite toLowerCase_ascii. Qed.

(** [matchesSearch] decides whether the lowered name includes the lowered
    search term. *)
Lemma matchesSearch_iff {L : LowerCasing} (searchTerm : string)
    (item : InventoryItem) :
  matchesSearch searchTerm item = true
  <-> substring_of (toLowerCase searchTerm) (toLowerCase (name item)).
Proof. apply includes_iff. Qed.

(** On ASCII text [matchesSearch] decides [name_contains]. *)
Lemma matchesSearch_ascii_iff {L : LowerCasing} (searchTerm : string)
    (item : InventoryItem) :
  is_ascii searchTerm = true -> is_ascii (name item) = true ->
  (matchesSearch searchTerm item = true <-> name_contains searchTerm item).
Proof.
  intros Hterm Hname; rewrite matchesSearch_iff.
  rewrite (toLowerCase_ascii _ Hterm), (toLowerCase_ascii _ Hname).
  apply asciiLowerCase_includes_iff.
Qed.

Lemma matchesSearch_empty {L : LowerCasing} (item : InventoryItem) :
  matchesSearch "" item = true.
Proof.
  unfold matchesSearch; rewrite toLowerCase_empty; apply includes_empty.
Qed.



(** ** Laws of the view projector *)

Lemma isShown_trash {L : LowerCasing} filterCategory searchTerm item :
  isShown filterCategory searchTerm true item = isDeleted item.
Proof. reflexivity. Qed.


(** C6: in trash mode [filteredItems] shows exactly the items with
    [isDeleted = true]: an item is shown if and only if it is in the
    collection and deleted, each as often as it occurs there, and the result
    is the same for every category filter and every search term. *)
Theorem filteredItems_trash_mode {L : LowerCasing} :
  forall (items : list InventoryItem) (filterCategory : CategoryFilter)
         (searchTerm : string),
    (forall item,
        In item (filteredItems items filterCategory searchTerm true)
        <-> In item items /\ isDeleted item = true) /\
    Permutation (filteredItems items filterCategory searchTerm true)
                (filter isDeleted items) /\
    (forall filterCategory' searchTerm',
        filteredItems items filterCategory' searchTerm' true
        = filteredItems items filterCategory searchTerm true).
Proof.
  intros items filterCategory searchTerm; unfold filteredItems.
  split; [| split].
  - intros item; now rewrite sort_In, filter_In, isShown_trash.
  - rewrite sort_Permutation; apply Permutation_refl.
  - reflexivity.
Qed.


Lemma filteredItems_trash_mode_witness :
  In (mkItem "4" "牛排" 2 "块" MEAT (0 - day_ms * 8) true)
     (filteredItems (moveToTrash "4" (demoData 0)) (Only FRUIT) "zz" true).
Proof.
  apply (proj1 (filteredItems_trash_mode
                  (moveToTrash "4" (demoData 0)) (Only FRUIT) "zz")).
  split; [simpl; tauto | reflexivity].
Defined.


(** ** The scenarios of the seed data *)

(** The names of the seed data hold no cased letter outside ASCII, so they
    are their own lower case; the scenarios are evaluated with
    [asciiLowering]. *)

(** The seed data, acquired 1, 0, 4 and 8 days ago, are shown newest
    first. *)
Example seed_shown_newest_first :
  map id (filteredItems (demoData 0) ALL "" false) = ["2"; "1"; "3"; "4"].
Proof. reflexivity. Qed.

(** After [moveToTrash "4"] the trash shows that item alone and the normal
    view the other three. *)
Example seed_trash_scenario :
  map id (filteredItems (moveToTrash "4" (demoData 0)) ALL "" true) = ["4"] /\
  map id (filteredItems (moveToTrash "4" (demoData 0)) ALL "" false)
  = ["2"; "1"; "3"].
Proof. split; reflexivity. Qed.

(** [deleteForever] removes the item from both views. *)
Example seed_purge_scenario :
  let items := deleteForever "4" (moveToTrash "4" (demoData 0)) in
  filteredItems items ALL "" true = [] /\
  map id (filteredItems items ALL "" false) = ["2"; "1"; "3"].
Proof. split; reflexivity. Qed.

(** Quantity 1 cannot be lowered and can be raised. *)
Example seed_quantity_scenario :
  map quantity (handleUpdateQuantity "1" (-1) (demoData 0)) = [1; 20; 3; 2] /\
  map quantity (handleUpdateQuantity "1" 1 (demoData 0)) = [2; 20; 3; 2].
Proof. split; reflexivity. Qed.

(** The search term ["牛"] finds the two names that contain it. *)
Example seed_search_scenario :
  map id (filteredItems (demoData 0) ALL "牛" false) = ["1"; "4"].
Proof. reflexivity. Qed.

(** Letter case does not matter to the search, whatever the builtin does
    outside ASCII. *)
Example search_ignores_case {L : LowerCasing} :
  matchesSearch "MiLk" (mkItem "9" "Oat milk" 1 "L" OTHER 0 false) = true.
Proof.
  apply matchesSearch_ascii_iff; [reflexivity | reflexivity |].
  exists "milk"; split; [exists "Oat ", ""; reflexivity | reflexivity].
Qed.

(** The seed data are 1, 0, 4 and 8 days old at the instant of loading, and
    a date in the future counts as many days as one in the past. *)
Example seed_days_stored :
  map (fun item => getDaysStored (addedDate item) 0) (demoData 0) = [1; 0; 4; 8] /\
  getDaysStored (3 * day_ms) 0 = 3.
Proof. split; reflexivity. Qed.

(** ** Further laws of the inventory store *)

Lemma updateQuantity_id id' delta item :
  id (updateQuantity id' delta item) = id item.
Proof. apply (updateQuantity_frame id' delta item). Qed.

Lemma markDeleted_id id' flag item : id (markDeleted id' flag item) = id item.
Proof. apply (markDeleted_frame id' flag item). Qed.

Lemma not_in_ids id' (prev : list InventoryItem) item :
  ~ In id' (map id prev) -> In item prev -> id item <> id'.
Proof. intros Hout Hin Heq; apply Hout; rewrite <- Heq; now apply in_map. Qed.

(** A filter that lets every element of the list through returns the list. *)
Lemma filter_all {A : Type} (p : A -> bool) (l : list A) :
  (forall x, In x l -> p x = true) -> filter p l = l.
Proof.
  induction l as [| x l IH]; intros H; simpl; [reflexivity |].
  rewrite (H x (or_introl eq_refl)), IH; [reflexivity |].
  intros y Hy; apply H; now right.
Qed.

(** A filter that does not see what a map changes commutes with it. *)
Lemma filter_map_commute {A : Type} (p : A -> bool) (f : A -> A) (l : list A) :
  (forall x, p (f x) = p x) -> filter p (map f l) = map f (filter p l).
Proof.
  intros H; induction l as [| x l IH]; simpl; [reflexivity |].
  rewrite H, IH; now destruct (p x).
Qed.

Lemma keeps_other_id_iff id' item :
  negb (id item =? id')%string = true <-> id item <> id'.
Proof.
  rewrite negb_true_iff; destruct (String.eqb_spec (id item) id'); split;
    congruence.
Qed.

(** X1: [deleteForever] removes every item with the given id and nothing else:
    an item is in the result if and only if it was in the collection under
    another id, the id is not in use afterwards, and a second removal
    changes nothing. *)
Theorem deleteForever_removes_the_id :
  forall (id' : string) (prev : list InventoryItem),
    (forall item,
        In item (deleteForever id' prev) <-> In item prev /\ id item <> id') /\
    ~ In id' (map id (deleteForever id' prev)) /\
    deleteForever id' (deleteForever id' prev) = deleteForever id' prev.
Proof.
  intros id' prev.
  assert (Hmem : forall item,
             In item (deleteForever id' prev)
             <-> In item prev /\ id item <> id').
  { intros item; unfold deleteForever.
    now rewrite filter_In, keeps_other_id_iff. }
  split; [exact Hmem | split].
  - intros Hin; apply in_map_iff in Hin; destruct Hin as [item [Heq Hin]].
    apply Hmem in Hin; now destruct Hin.
  - unfold deleteForever at 1; apply filter_all; intros item Hin.
    apply keeps_other_id_iff; now apply Hmem in Hin.
Qed.

(** X2: An id that is not in the collection makes every updater return the
    collection as it is. *)
Theorem unknown_id_changes_nothing :
  forall (id' : string) (prev : list InventoryItem),
    ~ In id' (map id prev) ->
    (forall delta, handleUpdateQuantity id' delta prev = prev) /\
    moveToTrash id' prev = prev /\
    restoreFromTrash id' prev = prev /\
    deleteForever id' prev = prev.
Proof.
  intros id' prev Hout.
  pose proof (not_in_ids id' prev) as Hne.
  repeat split.
  - intros delta; apply map_fixed; intros item Hin.
    apply updateQuantity_other; now apply Hne.
  - apply map_fixed; intros item Hin; apply markDeleted_other; now apply Hne.
  - apply map_fixed; intros item Hin; apply markDeleted_other; now apply Hne.
  - apply filter_all; intros item Hin; apply keeps_other_id_iff; now apply Hne.
Qed.

Lemma unknown_id_changes_nothing_witness :
  handleUpdateQuantity "9" 5 (demoData 0) = demoData 0 /\
  deleteForever "9" (demoData 0) = demoData 0.
Proof.
  assert (Hout : ~ In "9" (map id (demoData 0))).
  { simpl; intros H.
    repeat (destruct H as [H | H]; [discriminate H |]); exact H. }
  destruct (unknown_id_changes_nothing "9" (demoData 0) Hout)
    as [Hqty [_ [_ Hdel]]].
  split; [apply Hqty | exact Hdel].
Defined.

Lemma handleUpdateQuantity_ids id' delta prev :
  map id (handleUpdateQuantity id' delta prev) = map id prev.
Proof.
  unfold handleUpdateQuantity; rewrite map_map.
  apply map_ext; intros item; apply updateQuantity_id.
Qed.

Lemma markDeleted_ids id' flag prev :
  map id (map (markDeleted id' flag) prev) = map id prev.
Proof.
  rewrite map_map; apply map_ext; intros item; apply markDeleted_id.
Qed.

Lemma deleteForever_ids id' prev :
  map id (deleteForever id' prev)
  = filter (fun i => negb (i =? id')%string) (map id prev).
Proof.
  unfold deleteForever; induction prev as [| item prev IH]; simpl;
    [reflexivity |].
  destruct (id item =? id')%string; simpl; now rewrite IH.
Qed.

(** X3: Uniqueness of the ids is kept by every updater: the three that map over
    the array leave the list of ids as it is, [deleteForever] only removes
    from it, and after [handleAddItem] the ids are unique exactly when they
    were before and the drawn identifier was not in use. *)
Theorem unique_ids_preserved :
  forall (id' : string) (delta : Z) (prev : list InventoryItem),
    map id (handleUpdateQuantity id' delta prev) = map id prev /\
    map id (moveToTrash id' prev) = map id prev /\
    map id (restoreFromTrash id' prev) = map id prev /\
    (unique_ids prev -> unique_ids (deleteForever id' prev)) /\
    (forall uuid now newItem,
        unique_ids (handleAddItem uuid now newItem prev)
        <-> unique_ids prev /\ ~ In uuid (map id prev)).
Proof.
  intros id' delta prev; unfold unique_ids.
  split; [apply handleUpdateQuantity_ids |].
  split; [apply markDeleted_ids |].
  split; [apply markDeleted_ids |].
  split.
  - intros Hu; rewrite deleteForever_ids; now apply NoDup_filter.
  - intros uuid now newItem; simpl; rewrite NoDup_cons_iff; tauto.
Qed.

Lemma unique_ids_preserved_witness :
  unique_ids (deleteForever "3" (demoData 0)).
Proof.
  apply (proj1 (proj2 (proj2 (proj2
           (unique_ids_preserved "3" 0 (demoData 0)))))).
  unfold unique_ids; simpl.
  repeat (constructor;
          [simpl; intros H;
           repeat (destruct H as [H | H]; [discriminate H |]); exact H |]).
  constructor.
Defined.

Lemma updateQuantity_positive id' delta item :
  1 <= quantity item -> 1 <= quantity (updateQuantity id' delta item).
Proof.
  intros Hq; unfold updateQuantity.
  destruct (id item =? id')%string; cbv zeta; [| exact Hq].
  destruct (Z.ltb_spec 0 (quantity item + delta)); [simpl; lia | exact Hq].
Qed.

(** X4: A collection whose quantities are all at least 1 stays such a
    collection under [handleUpdateQuantity] with any id and any delta, under
    [moveToTrash], [restoreFromTrash] and [deleteForever]. *)
Theorem quantities_positive_preserved :
  forall (id' : string) (delta : Z) (prev : list InventoryItem),
    quantities_positive prev ->
    quantities_positive (handleUpdateQuantity id' delta prev) /\
    quantities_positive (moveToTrash id' prev) /\
    quantities_positive (restoreFromTrash id' prev) /\
    quantities_positive (deleteForever id' prev).
Proof.
  intros id' delta prev Hpos; unfold quantities_positive in *.
  rewrite Forall_forall in Hpos.
  assert (Hmark : forall flag,
             Forall (fun item => 1 <= quantity item)
                    (map (markDeleted id' flag) prev)).
  { intros flag; apply Forall_forall; intros item Hin.
    apply in_map_iff in Hin; destruct Hin as [old [<- Hold]].
    destruct (markDeleted_frame id' flag old) as [[_ [_ [Hq _]]] _].
    rewrite Hq; now apply Hpos. }
  repeat split; try apply Hmark.
  - apply Forall_forall; intros item Hin.
    apply in_map_iff in Hin; destruct Hin as [old [<- Hold]].
    apply updateQuantity_positive; now apply Hpos.
  - apply Forall_forall; intros item Hin.
    apply filter_In in Hin; now apply Hpos.
Qed.

Lemma quantities_positive_preserved_witness :
  quantities_positive (handleUpdateQuantity "1" (-7) (demoData 0)).
Proof.
  apply (quantities_positive_preserved "1" (-7) (demoData 0)).
  unfold quantities_positive; simpl; repeat constructor; simpl; lia.
Defined.

Lemma with_quantity_twice item q q' :
  with_quantity (with_quantity item q) q' = with_quantity item q'.
Proof. reflexivity. Qed.

Lemma updateQuantity_twice id' a b item :
  (id item = id' -> 0 < quantity item + a /\ 0 < quantity item + a + b) ->
  updateQuantity id' b (updateQuantity id' a item)
  = updateQuantity id' (a + b) item.
Proof.
  intros Hpos; destruct (String.eqb_spec (id item) id') as [Heq | Hne].
  - destruct (Hpos Heq) as [Ha Hab].
    rewrite (updateQuantity_applied id' a item Heq Ha).
    rewrite updateQuantity_applied; [| exact Heq | simpl; lia].
    rewrite updateQuantity_applied; [| exact Heq | lia].
    rewrite with_quantity_twice; simpl; f_equal; lia.
  - rewrite (updateQuantity_other id' a item Hne).
    now rewrite !(updateQuantity_other id' _ item Hne).
Qed.

(** X5: Two quantity updates of the same id add up when neither is rejected
    and every number involved is a safe integer: if [a], [b] and [a + b] are
    safe integers and every item with the id has a safe quantity that stays
    positive and safe after [a] and after [a + b], updating by [a] and then
    by [b] is updating by [a + b]. *)
Theorem handleUpdateQuantity_adds_up :
  forall (id' : string) (a b : Z) (prev : list InventoryItem),
    safe_integer a -> safe_integer b -> safe_integer (a + b) ->
    (forall item,
        In item prev -> id item = id' ->
        safe_integer (quantity item) /\
        0 < quantity item + a <= MAX_SAFE_INTEGER /\
        0 < quantity item + a + b <= MAX_SAFE_INTEGER) ->
    handleUpdateQuantity id' b (handleUpdateQuantity id' a prev)
    = handleUpdateQuantity id' (a + b) prev.
Proof.
  intros id' a b prev _ _ _ Hpos; unfold handleUpdateQuantity; rewrite map_map.
  apply map_ext_in; intros item Hin.
  apply updateQuantity_twice; intros Heq.
  destruct (Hpos item Hin Heq) as [_ [Ha Hab]]; lia.
Qed.

Lemma handleUpdateQuantity_adds_up_witness :
  handleUpdateQuantity "2" (-3) (handleUpdateQuantity "2" 5 (demoData 0))
  = handleUpdateQuantity "2" (5 + -3) (demoData 0).
Proof.
  apply handleUpdateQuantity_adds_up;
    try (unfold safe_integer, MAX_SAFE_INTEGER; lia).
  intros item Hin Heq; simpl in Hin.
  repeat (destruct Hin as [<- | Hin];
          [simpl in *; unfold safe_integer, MAX_SAFE_INTEGER;
           try lia; discriminate |]).
  contradiction.
Defined.

(** X6: On a collection whose quantities are all at least 1 and below the
    largest safe integer, the plus button followed by the minus button of
    the same item gives the collection back. *)
Theorem plus_then_minus_restores :
  forall (id' : string) (prev : list InventoryItem),
    Forall (fun item => 1 <= quantity item < MAX_SAFE_INTEGER) prev ->
    handleUpdateQuantity id' (-1) (handleUpdateQuantity id' 1 prev) = prev.
Proof.
  intros id' prev Hpos; rewrite Forall_forall in Hpos.
  unfold handleUpdateQuantity; rewrite map_map; apply map_fixed.
  intros item Hin; specialize (Hpos item Hin).
  rewrite updateQuantity_twice by (intros _; lia).
  destruct (String.eqb_spec (id item) id') as [Heq | Hne].
  - rewrite updateQuantity_applied; [| exact Heq | lia].
    destruct item; unfold with_quantity; simpl; f_equal; lia.
  - now apply updateQuantity_other.
Qed.

Lemma plus_then_minus_restores_witness :
  handleUpdateQuantity "1" (-1) (handleUpdateQuantity "1" 1 (demoData 0))
  = demoData 0.
Proof.
  apply plus_then_minus_restores.
  simpl; repeat constructor; simpl; unfold MAX_SAFE_INTEGER; lia.
Defined.

(** The other order is not an undo: at quantity 1 the minus button is
    rejected, and the plus button then gives 2. *)
Example minus_then_plus_at_one :
  map quantity
      (handleUpdateQuantity "1" 1 (handleUpdateQuantity "1" (-1) (demoData 0)))
  = [2; 20; 3; 2].
Proof. reflexivity. Qed.

Lemma markDeleted_updateQuantity id1 flag id2 delta item :
  markDeleted id1 flag (updateQuantity id2 delta item)
  = updateQuantity id2 delta (markDeleted id1 flag item).
Proof.
  unfold markDeleted, updateQuantity.
  destruct (id item =? id1)%string eqn:E1, (id item =? id2)%string eqn:E2;
    cbv zeta; simpl; rewrite ?E1, ?E2; try reflexivity;
    destruct (0 <? quantity item + delta); simpl; now rewrite ?E1.
Qed.

Lemma updateQuantity_updateQuantity id1 d1 id2 d2 item :
  id1 <> id2 ->
  updateQuantity id1 d1 (updateQuantity id2 d2 item)
  = updateQuantity id2 d2 (updateQuantity id1 d1 item).
Proof.
  intros Hne; destruct (String.eqb_spec (id item) id1) as [E1 | N1].
  - assert (N2 : id item <> id2) by congruence.
    rewrite (updateQuantity_other id2 d2 item N2).
    apply eq_sym, updateQuantity_other; now rewrite updateQuantity_id.
  - rewrite (updateQuantity_other id1 d1 item N1).
    apply updateQuantity_other; now rewrite updateQuantity_id.
Qed.

Lemma markDeleted_markDeleted id1 f1 id2 f2 item :
  id1 <> id2 ->
  markDeleted id1 f1 (markDeleted id2 f2 item)
  = markDeleted id2 f2 (markDeleted id1 f1 item).
Proof.
  intros Hne; destruct (String.eqb_spec (id item) id1) as [E1 | N1].
  - assert (N2 : id item <> id2) by congruence.
    rewrite (markDeleted_other id2 f2 item N2).
    apply eq_sym, markDeleted_other; now rewrite markDeleted_id.
  - rewrite (markDeleted_other id1 f1 item N1).
    apply markDeleted_other; now rewrite markDeleted_id.
Qed.

(** X7: The updaters can be applied in either order: a change of the deleted
    flag and a quantity update commute whatever their ids, [deleteForever]
    commutes with the three updaters that map over the array, and two
    quantity updates, or a [moveToTrash] and a [restoreFromTrash], commute
    when their ids differ. *)
Theorem updaters_commute :
  forall (id1 id2 : string) (d1 d2 : Z) (prev : list InventoryItem),
    moveToTrash id1 (handleUpdateQuantity id2 d2 prev)
    = handleUpdateQuantity id2 d2 (moveToTrash id1 prev) /\
    restoreFromTrash id1 (handleUpdateQuantity id2 d2 prev)
    = handleUpdateQuantity id2 d2 (restoreFromTrash id1 prev) /\
    deleteForever id1 (handleUpdateQuantity id2 d2 prev)
    = handleUpdateQuantity id2 d2 (deleteForever id1 prev) /\
    deleteForever id1 (moveToTrash id2 prev)
    = moveToTrash id2 (deleteForever id1 prev) /\
    deleteForever id1 (restoreFromTrash id2 prev)
    = restoreFromTrash id2 (deleteForever id1 prev) /\
    (id1 <> id2 ->
     handleUpdateQuantity id1 d1 (handleUpdateQuantity id2 d2 prev)
     = handleUpdateQuantity id2 d2 (handleUpdateQuantity id1 d1 prev)) /\
    (id1 <> id2 ->
     moveToTrash id1 (restoreFromTrash id2 prev)
     = restoreFromTrash id2 (moveToTrash id1 prev)).
Proof.
  intros id1 id2 d1 d2 prev.
  unfold moveToTrash, restoreFromTrash, handleUpdateQuantity, deleteForever.
  repeat match goal with |- _ /\ _ => split end.
  - rewrite !map_map; apply map_ext; intros item.
    apply markDeleted_updateQuantity.
  - rewrite !map_map; apply map_ext; intros item.
    apply markDeleted_updateQuantity.
  - apply filter_map_commute; intros item; now rewrite updateQuantity_id.
  - apply filter_map_commute; intros item; now rewrite markDeleted_id.
  - apply filter_map_commute; intros item; now rewrite markDeleted_id.
  - intros Hne; rewrite !map_map; apply map_ext; intros item.
    now apply updateQuantity_updateQuantity.
  - intros Hne; rewrite !map_map; apply map_ext; intros item.
    now apply markDeleted_markDeleted.
Qed.

Lemma updaters_commute_witness :
  handleUpdateQuantity "1" 1 (handleUpdateQuantity "2" (-1) (demoData 0))
  = handleUpdateQuantity "2" (-1) (handleUpdateQuantity "1" 1 (demoData 0)).
Proof.
  apply (updaters_commute "1" "2" 1 (-1) (demoData 0)); discriminate.
Defined.

(** ** Further laws of the view projector *)

Lemma filter_filter_andb {A : Type} (p q : A -> bool) (l : list A) :
  filter p (filter q l) = filter (fun x => q x && p x) l.
Proof.
  induction l as [| x l IH]; simpl; [reflexivity |].
  destruct (q x); simpl; [destruct (p x) |]; now rewrite IH.
Qed.

Lemma filter_swap {A : Type} (p q : A -> bool) (l : list A) :
  filter p (filter q l) = filter q (filter p l).
Proof.
  rewrite !filter_filter_andb; apply filter_ext; intros x; apply andb_comm.
Qed.

Lemma filter_split_Permutation {A : Type} (p : A -> bool) (l : list A) :
  Permutation l (filter (fun x => negb (p x)) l ++ filter p l).
Proof.
  induction l as [| x l IH]; simpl; [constructor |].
  destruct (p x); simpl.
  - now apply Permutation_cons_app.
  - now constructor.
Qed.

Lemma newest_first_filter (p : InventoryItem -> bool) l :
  newest_first l -> newest_first (filter p l).
Proof.
  unfold newest_first; induction 1 as [| x l Hs IH Hall]; simpl.
  - constructor.
  - destruct (p x); [| exact IH].
    constructor; [exact IH |].
    rewrite Forall_forall in *; intros y Hy.
    apply filter_In in Hy; now apply Hall.
Qed.

(** The stable sort commutes with any filter: the order in which two items
    are shown does not depend on which other items are shown. *)
Lemma sort_filter (p : InventoryItem -> bool) l :
  sort newestFirst (filter p l) = filter p (sort newestFirst l).
Proof.
  apply eq_sym, newest_first_stable_unique.
  - apply newest_first_filter, sort_newest_first.
  - apply sort_newest_first.
  - intros t; rewrite acquired_at_sort; unfold acquired_at.
    rewrite filter_swap; fold (acquired_at t (sort newestFirst l)).
    rewrite acquired_at_sort; unfold acquired_at; apply filter_swap.
Qed.

Lemma isShown_all {L : LowerCasing} item :
  isShown ALL "" false item = negb (isDeleted item).
Proof.
  unfold isShown; destruct (isDeleted item); [reflexivity |].
  simpl; apply matchesSearch_empty.
Qed.

Lemma isShown_narrow {L : LowerCasing} filterCategory searchTerm item :
  isShown filterCategory searchTerm false item
  = isShown ALL "" false item &&
    (matchesCategory filterCategory item && matchesSearch searchTerm item).
Proof.
  rewrite isShown_all; unfold isShown; now destruct (isDeleted item).
Qed.

(** X8: The two views split the collection: every item is shown, as often as it
    occurs, either in the normal view without filter and search term or in
    the trash view, and no item is shown in both, whatever the filter and
    the search term. *)
Theorem views_split_the_collection {L : LowerCasing} :
  forall items : list InventoryItem,
    Permutation items
                (filteredItems items ALL "" false
                 ++ filteredItems items ALL "" true) /\
    (forall filterCategory searchTerm filterCategory' searchTerm' item,
        In item (filteredItems items filterCategory searchTerm false) ->
        ~ In item (filteredItems items filterCategory' searchTerm' true)).
Proof.
  intros items; split.
  - unfold filteredItems; rewrite !sort_Permutation.
    rewrite (filter_ext _ _ isShown_all).
    apply (filter_split_Permutation isDeleted).
  - intros fc st fc' st' item Hnormal Htrash; unfold filteredItems in *.
    apply sort_In, filter_In in Hnormal; apply sort_In, filter_In in Htrash.
    destruct Hnormal as [_ Hn], Htrash as [_ Ht].
    rewrite isShown_trash in Ht; unfold isShown in Hn; rewrite Ht in Hn.
    discriminate Hn.
Qed.

(** X9: Choosing a category or typing a search term only takes rows out of the
    normal view: the filtered view is the unfiltered view with the items
    that fail the category or the search test removed, the others keeping
    their order. *)
Theorem filteredItems_narrows_the_full_view {L : LowerCasing} :
  forall (items : list InventoryItem) (filterCategory : CategoryFilter)
         (searchTerm : string),
    filteredItems items filterCategory searchTerm false
    = filter (fun item => matchesCategory filterCategory item &&
                          matchesSearch searchTerm item)
             (filteredItems items ALL "" false).
Proof.
  intros items filterCategory searchTerm; unfold filteredItems.
  rewrite <- sort_filter, filter_filter_andb; f_equal.
  apply filter_ext; intros item; apply isShown_narrow.
Qed.

Lemma string_app_assoc (a b c : string) :
  ((a ++ b) ++ c = a ++ (b ++ c))%string.
Proof. induction a as [| x a IH]; simpl; [reflexivity | now rewrite IH]. Qed.

Lemma substring_of_trans (a b c : string) :
  substring_of a b -> substring_of b c -> substring_of a c.
Proof.
  intros [p [q ->]] [p' [q' ->]].
  exists (p' ++ p)%string, (q ++ q')%string.
  now rewrite !string_app_assoc.
Qed.

Lemma substring_of_asciiLowerCase (a b : string) :
  substring_of a b -> substring_of (asciiLowerCase a) (asciiLowerCase b).
Proof.
  intros [p [q ->]]; exists (asciiLowerCase p), (asciiLowerCase q).
  now rewrite !asciiLowerCase_app.
Qed.

(** A block of an ASCII text is an ASCII text. *)
Lemma substring_of_is_ascii (a b : string) :
  substring_of a b -> is_ascii b = true -> is_ascii a = true.
Proof.
  intros [p [q ->]]; rewrite !is_ascii_app, !andb_true_iff; tauto.
Qed.

Lemma matchesSearch_substring {L : LowerCasing}
    (searchTerm searchTerm' : string) item :
  is_ascii searchTerm' = true ->
  substring_of searchTerm searchTerm' ->
  matchesSearch searchTerm' item = true -> matchesSearch searchTerm item = true.
Proof.
  intros Hascii Hsub; rewrite !matchesSearch_iff; intros Hlong.
  eapply substring_of_trans; [| exact Hlong].
  rewrite (toLowerCase_ascii _ Hascii).
  rewrite (toLowerCase_ascii _ (substring_of_is_ascii _ _ Hsub Hascii)).
  now apply substring_of_asciiLowerCase.
Qed.

(** X10: Typing more characters only takes rows out, for a search term in
    ASCII: when the old search term occurs in the new one and the new one
    has ASCII characters only, the new normal view is the old one with the
    items that fail the new term removed.  The names may hold any
    characters. *)
Theorem longer_search_term_narrows {L : LowerCasing} :
  forall (items : list InventoryItem) (filterCategory : CategoryFilter)
         (searchTerm searchTerm' : string),
    is_ascii searchTerm' = true ->
    substring_of searchTerm searchTerm' ->
    filteredItems items filterCategory searchTerm' false
    = filter (matchesSearch searchTerm')
             (filteredItems items filterCategory searchTerm false).
Proof.
  intros items filterCategory searchTerm searchTerm' Hascii Hsub.
  unfold filteredItems; rewrite <- sort_filter, filter_filter_andb; f_equal.
  apply filter_ext; intros item; unfold isShown.
  destruct (isDeleted item); [reflexivity |].
  destruct (matchesCategory filterCategory item); [simpl | reflexivity].
  destruct (matchesSearch searchTerm' item) eqn:Hlong;
    [| now rewrite andb_false_r].
  now rewrite (matchesSearch_substring _ _ _ Hascii Hsub Hlong).
Qed.

Lemma longer_search_term_narrows_witness :
  filteredItems [mkItem "9" "Oat Milk" 1 "L" OTHER 0 false;
                 mkItem "8" "Almond milk" 2 "L" OTHER 5 false] ALL "oat m" false
  = filter (matchesSearch "oat m")
           (filteredItems [mkItem "9" "Oat Milk" 1 "L" OTHER 0 false;
                           mkItem "8" "Almond milk" 2 "L" OTHER 5 false]
                          ALL "m" false).
Proof.
  apply longer_search_term_narrows; [reflexivity |].
  exists "oat ", ""; reflexivity.
Defined.

Lemma insert_newest x l :
  (forall y, In y l -> addedDate y <= addedDate x) ->
  insert newestFirst x l = x :: l.
Proof.
  destruct l as [| y l]; intros Hmax; simpl; [reflexivity |].
  destruct (Z.leb_spec (newestFirst x y) 0) as [_ | Hgt]; [reflexivity |].
  specialize (Hmax y (or_introl eq_refl)); unfold newestFirst in Hgt; lia.
Qed.

(** X11: An item added at an instant no earlier than the acquisition of every
    item of the collection is shown in the first row of the normal view when
    it passes the category and search tests, and the other rows are those of
    before; when it fails them the normal view is as before.  The trash view
    is as before in every case. *)
Theorem handleAddItem_shows_new_item_first {L : LowerCasing} :
  forall (uuid : string) (now : Z) (newItem : NewItem)
         (prev : list InventoryItem) (filterCategory : CategoryFilter)
         (searchTerm : string),
    (forall item, In item prev -> addedDate item <= now) ->
    filteredItems (handleAddItem uuid now newItem prev)
                  filterCategory searchTerm false
    = (if matchesCategory filterCategory (createItem uuid now newItem) &&
          matchesSearch searchTerm (createItem uuid now newItem)
       then createItem uuid now newItem
            :: filteredItems prev filterCategory searchTerm false
       else filteredItems prev filterCategory searchTerm false) /\
    filteredItems (handleAddItem uuid now newItem prev)
                  filterCategory searchTerm true
    = filteredItems prev filterCategory searchTerm true.
Proof.
  intros uuid now newItem prev filterCategory searchTerm Hlatest.
  unfold filteredItems, handleAddItem; split; [| reflexivity].
  cbn [filter]; unfold isShown at 1; cbn [isDeleted createItem].
  fold (createItem uuid now newItem).
  destruct (matchesCategory filterCategory (createItem uuid now newItem) &&
            matchesSearch searchTerm (createItem uuid now newItem));
    [| reflexivity].
  cbn [sort]; apply insert_newest; intros item Hin.
  apply sort_In, filter_In in Hin; simpl; apply Hlatest, Hin.
Qed.

Lemma handleAddItem_shows_new_item_first_witness :
  map id (filteredItems
            (handleAddItem "7f3c" 0 (mkNewItem "egg" 6 "pcs" OTHER None)
                           (demoData 0))
            ALL "" false)
  = ["7f3c"; "2"; "1"; "3"; "4"].
Proof.
  rewrite (proj1 (handleAddItem_shows_new_item_first
                    "7f3c" 0 (mkNewItem "egg" 6 "pcs" OTHER None)
                    (demoData 0) ALL "" ltac:(
                      intros item Hin; simpl in Hin;
                      repeat (destruct Hin as [<- | Hin];
                              [vm_compute; discriminate |]);
                      contradiction))).
  reflexivity.
Defined.

(** X12: After [moveToTrash] no item with the id is left in the normal view and
    every item that had the id is in the trash view, marked deleted; after
    [restoreFromTrash] no item with the id is left in the trash view; this
    holds for every category filter and search term. *)
Theorem soft_delete_moves_between_views {L : LowerCasing} :
  forall (id' : string) (prev : list InventoryItem)
         (filterCategory : CategoryFilter) (searchTerm : string),
    (forall item,
        In item (filteredItems (moveToTrash id' prev)
                               filterCategory searchTerm false) ->
        id item <> id') /\
    (forall item,
        In item prev -> id item = id' ->
        In (with_isDeleted item true)
           (filteredItems (moveToTrash id' prev)
                          filterCategory searchTerm true)) /\
    (forall item,
        In item (filteredItems (restoreFromTrash id' prev)
                               filterCategory searchTerm true) ->
        id item <> id').
Proof.
  intros id' prev filterCategory searchTerm; unfold filteredItems.
  split; [| split].
  - intros item Hin Heq; apply sort_In, filter_In in Hin.
    destruct Hin as [Hin Hshown]; apply in_map_iff in Hin.
    destruct Hin as [old [<- Hold]]; rewrite markDeleted_id in Heq.
    destruct (markDeleted_frame id' true old) as [_ Hflag].
    unfold isShown in Hshown; rewrite (Hflag Heq) in Hshown.
    discriminate Hshown.
  - intros item Hin Heq; apply sort_In, filter_In; split; [| reflexivity].
    apply in_map_iff; exists item; split; [| exact Hin].
    unfold markDeleted; now rewrite (proj2 (String.eqb_eq _ _) Heq).
  - intros item Hin Heq; apply sort_In, filter_In in Hin.
    destruct Hin as [Hin Hshown]; apply in_map_iff in Hin.
    destruct Hin as [old [<- Hold]]; rewrite markDeleted_id in Heq.
    destruct (markDeleted_frame id' false old) as [_ Hflag].
    rewrite isShown_trash, (Hflag Heq) in Hshown; discriminate Hshown.
Qed.

Lemma soft_delete_moves_between_views_witness :
  In (with_isDeleted (mkItem "4" "牛排" 2 "块" MEAT (0 - day_ms * 8) false) true)
     (filteredItems (moveToTrash "4" (demoData 0)) (Only FRUIT) "x" true).
Proof.
  apply (proj1 (proj2 (soft_delete_moves_between_views
                         "4" (demoData 0) (Only FRUIT) "x")));
    [simpl; tauto | reflexivity].
Defined.

(** X13: After [deleteForever] no item with the id is shown in either view,
    whatever the category filter and the search term. *)
Theorem deleteForever_hides_from_both_views {L : LowerCasing} :
  forall (id' : string) (prev : list InventoryItem)
         (filterCategory : CategoryFilter) (searchTerm : string)
         (showTrash : bool) (item : InventoryItem),
    In item (filteredItems (deleteForever id' prev)
                           filterCategory searchTerm showTrash) ->
    id item <> id' /\ In item prev.
Proof.
  intros id' prev filterCategory searchTerm showTrash item Hin.
  unfold filteredItems, deleteForever in Hin.
  apply sort_In, filter_In in Hin; destruct Hin as [Hin _].
  apply filter_In in Hin; destruct Hin as [Hin Hkeep].
  split; [now apply keeps_other_id_iff | exact Hin].
Qed.

Lemma deleteForever_hides_from_both_views_witness :
  id (mkItem "2" "基围虾" 20 "只" SEAFOOD (0 - day_ms * 0) false) <> "4" /\
  In (mkItem "2" "基围虾" 20 "只" SEAFOOD (0 - day_ms * 0) false) (demoData 0).
Proof.
  apply (deleteForever_hides_from_both_views
           "4" (demoData 0) ALL "" false).
  vm_compute; tauto.
Defined.

(** ** Laws of the row buttons *)

(** With unique ids an item of the collection is known by its id. *)
Lemma unique_ids_inj items a b :
  unique_ids items -> In a items -> In b items -> id a = id b -> a = b.
Proof.
  unfold unique_ids; induction items as [| x items IH]; simpl;
    intros Hu Ha Hb Heq; [contradiction |].
  apply NoDup_cons_iff in Hu; destruct Hu as [Hx Hu].
  destruct Ha as [-> | Ha], Hb as [-> | Hb].
  - reflexivity.
  - exfalso; apply Hx; rewrite Heq; now apply in_map.
  - exfalso; apply Hx; rewrite <- Heq; now apply in_map.
  - now apply IH.
Qed.

(** A row is the row of an item of the collection, and the flag of the item
    is the view the row is in. *)
Lemma row_item {L : LowerCasing} items filterCategory searchTerm showTrash item :
  In item (filteredItems items filterCategory searchTerm showTrash) ->
  In item items /\ isDeleted item = showTrash.
Proof.
  unfold filteredItems; intros Hin; apply sort_In, filter_In in Hin.
  destruct Hin as [Hin Hshown]; split; [exact Hin |].
  unfold isShown in Hshown; destruct showTrash; [exact Hshown |].
  now destruct (isDeleted item).
Qed.

(** A filter that tells no element from its image under a map, and whose
    elements are fixed by the map, gives the same result after the map. *)
Lemma filter_map_fixed {A : Type} (p : A -> bool) (f : A -> A) (l : list A) :
  (forall x, In x l -> p (f x) = p x /\ (p x = true -> f x = x)) ->
  filter p (map f l) = filter p l.
Proof.
  induction l as [| x l IH]; intros H; simpl; [reflexivity |].
  destruct (H x (or_introl eq_refl)) as [Hp Hfix]; rewrite Hp.
  rewrite IH by (intros y Hy; apply H; now right).
  destruct (p x); [now rewrite Hfix | reflexivity].
Qed.

Lemma onClick_membership button item items other :
  In other items -> id other <> id item -> In other (onClick button item items).
Proof.
  intros Hin Hne; destruct button; simpl.
  - apply in_map_iff; exists other; split; [| exact Hin].
    now apply updateQuantity_other.
  - apply in_map_iff; exists other; split; [| exact Hin].
    now apply updateQuantity_other.
  - apply in_map_iff; exists other; split; [| exact Hin].
    now apply markDeleted_other.
  - apply in_map_iff; exists other; split; [| exact Hin].
    now apply markDeleted_other.
  - apply filter_In; split; [exact Hin | now apply keeps_other_id_iff].
Qed.

(** X14: In a collection with unique ids, a button of a row acts on that row
    only: every other item of the collection is in the collection afterwards
    as it was, and every item of the collection afterwards either was there
    before or has the id of the row. *)
Theorem row_button_changes_only_its_row {L : LowerCasing} :
  forall (items : list InventoryItem) (filterCategory : CategoryFilter)
         (searchTerm : string) (showTrash : bool)
         (item : InventoryItem) (button : RowButton),
    unique_ids items ->
    In item (filteredItems items filterCategory searchTerm showTrash) ->
    In button (rowButtons showTrash) ->
    (forall other,
        In other items -> other <> item ->
        In other (onClick button item items)) /\
    (forall new,
        In new (onClick button item items) ->
        In new items \/ id new = id item).
Proof.
  intros items filterCategory searchTerm showTrash item button Hu Hrow _.
  destruct (row_item _ _ _ _ _ Hrow) as [Hitem _]; split.
  - intros other Hin Hne; apply onClick_membership; [exact Hin |].
    intros Heq; apply Hne; now apply (unique_ids_inj items).
  - intros new Hnew.
    destruct (String.eqb_spec (id new) (id item)) as [Heq | Hne];
      [now right | left].
    destruct button; simpl in Hnew.
    + apply in_map_iff in Hnew; destruct Hnew as [old [<- Hold]].
      rewrite updateQuantity_id in Hne; now rewrite updateQuantity_other.
    + apply in_map_iff in Hnew; destruct Hnew as [old [<- Hold]].
      rewrite updateQuantity_id in Hne; now rewrite updateQuantity_other.
    + apply in_map_iff in Hnew; destruct Hnew as [old [<- Hold]].
      rewrite markDeleted_id in Hne; now rewrite markDeleted_other.
    + apply in_map_iff in Hnew; destruct Hnew as [old [<- Hold]].
      rewrite markDeleted_id in Hne; now rewrite markDeleted_other.
    + apply filter_In in Hnew; apply Hnew.
Qed.

Lemma demoData_unique_ids now : unique_ids (demoData now).
Proof.
  unfold unique_ids; simpl.
  repeat (constructor;
          [simpl; intros H;
           repeat (destruct H as [H | H]; [discriminate H |]); exact H |]).
  constructor.
Defined.

Lemma row_button_changes_only_its_row_witness :
  In (mkItem "2" "基围虾" 20 "只" SEAFOOD (0 - day_ms * 0) false)
     (onClick Trash (mkItem "4" "牛排" 2 "块" MEAT (0 - day_ms * 8) false)
              (demoData 0)).
Proof.
  apply (proj1 (row_button_changes_only_its_row
                  (L := asciiLowering) (demoData 0) ALL "" false
                  (mkItem "4" "牛排" 2 "块" MEAT (0 - day_ms * 8) false) Trash
                  (demoData_unique_ids 0)
                  ltac:(vm_compute; tauto) ltac:(simpl; tauto))).
  - simpl; tauto.
  - discriminate.
Defined.

(** A filter that lets no element of the list through returns nothing. *)
Lemma filter_none {A : Type} (p : A -> bool) (l : list A) :
  (forall x, In x l -> p x = false) -> filter p l = [].
Proof.
  induction l as [| x l IH]; intros H; simpl; [reflexivity |].
  rewrite (H x (or_introl eq_refl)); apply IH.
  intros y Hy; apply H; now right.
Qed.

(** With unique ids, the items that carry the id of an item of the
    collection are that item alone. *)
Lemma filter_own_id items item :
  unique_ids items -> In item items ->
  filter (fun x => (id x =? id item)%string) items = [item].
Proof.
  unfold unique_ids; induction items as [| x items IH]; intros Hu Hitem;
    [contradiction |].
  simpl in Hu; apply NoDup_cons_iff in Hu; destruct Hu as [Hx Hu].
  simpl; destruct Hitem as [-> | Hitem].
  - rewrite String.eqb_refl; f_equal.
    apply filter_none; intros y Hy.
    apply String.eqb_neq; intros Heq; apply Hx.
    rewrite <- Heq; now apply in_map.
  - destruct (String.eqb_spec (id x) (id item)) as [Heq | Hne].
    + exfalso; apply Hx; rewrite Heq; now apply in_map.
    + now apply IH.
Qed.

(** X15: In a collection with unique ids, the delete-forever button, which only
    rows of the trash view carry, removes a deleted item and never an active
    one: the collection before is the clicked item together with the
    collection after, and the normal view is the same before and after for
    every category filter and search term. *)
Theorem delete_forever_button_spares_active_items {L : LowerCasing} :
  forall (items : list InventoryItem) (filterCategory : CategoryFilter)
         (searchTerm : string) (item : InventoryItem),
    unique_ids items ->
    In item (filteredItems items filterCategory searchTerm true) ->
    In DeleteForever (rowButtons true) /\
    isDeleted item = true /\
    Permutation items (item :: onClick DeleteForever item items) /\
    (forall filterCategory' searchTerm',
        filteredItems (onClick DeleteForever item items)
                      filterCategory' searchTerm' false
        = filteredItems items filterCategory' searchTerm' false).
Proof.
  intros items filterCategory searchTerm item Hu Hrow.
  destruct (row_item _ _ _ _ _ Hrow) as [Hitem Hdel].
  split; [simpl; tauto | split; [exact Hdel | split]].
  - cbn [onClick]; unfold deleteForever.
    rewrite (filter_split_Permutation
               (fun x => (id x =? id item)%string) items) at 1.
    rewrite (filter_own_id items item Hu Hitem).
    apply Permutation_sym, Permutation_cons_append.
  - intros fc st; cbn [onClick]; unfold filteredItems, deleteForever.
    f_equal; rewrite filter_filter_andb; apply filter_ext_in.
    intros x Hx; destruct (String.eqb_spec (id x) (id item)) as [Heq | Hne];
      [simpl | reflexivity].
    rewrite (unique_ids_inj items x item Hu Hx Hitem Heq).
    unfold isShown; now rewrite Hdel.
Qed.

Lemma delete_forever_button_spares_active_items_witness :
  filteredItems
    (onClick DeleteForever
             (mkItem "4" "牛排" 2 "块" MEAT (0 - day_ms * 8) true)
             (moveToTrash "4" (demoData 0)))
    (Only SEAFOOD) "" false
  = filteredItems (moveToTrash "4" (demoData 0)) (Only SEAFOOD) "" false.
Proof.
  apply (delete_forever_button_spares_active_items
           (moveToTrash "4" (demoData 0)) ALL ""
           (mkItem "4" "牛排" 2 "块" MEAT (0 - day_ms * 8) true)).
  - unfold unique_ids, moveToTrash; rewrite markDeleted_ids.
    apply (demoData_unique_ids 0).
  - vm_compute; tauto.
Defined.

(** X16: In a collection with unique ids, the two quantity buttons, which only
    rows of the normal view carry, act on an active item, and the trash view
    is the same before and after the click for every category filter and
    search term: through the buttons no deleted item changes quantity. *)
Theorem quantity_buttons_spare_deleted_items {L : LowerCasing} :
  forall (items : list InventoryItem) (filterCategory : CategoryFilter)
         (searchTerm : string) (item : InventoryItem) (button : RowButton),
    unique_ids items ->
    In item (filteredItems items filterCategory searchTerm false) ->
    button = Minus \/ button = Plus ->
    In button (rowButtons false) /\
    isDeleted item = false /\
    (forall filterCategory' searchTerm',
        filteredItems (onClick button item items)
                      filterCategory' searchTerm' true
        = filteredItems items filterCategory' searchTerm' true).
Proof.
  intros items filterCategory searchTerm item button Hu Hrow Hbutton.
  destruct (row_item _ _ _ _ _ Hrow) as [Hitem Hactive].
  assert (Hkeep : forall delta fc st,
             filteredItems (handleUpdateQuantity (id item) delta items)
                           fc st true
             = filteredItems items fc st true).
  { intros delta fc st; unfold filteredItems, handleUpdateQuantity; f_equal.
    apply filter_map_fixed; intros x Hx; rewrite !isShown_trash.
    destruct (updateQuantity_frame (id item) delta x)
      as [_ [_ [_ [_ [_ Hflag]]]]].
    split; [exact Hflag |].
    intros Hdel; apply updateQuantity_other; intros Heq.
    rewrite (unique_ids_inj items x item Hu Hx Hitem Heq) in Hdel.
    congruence. }
  destruct Hbutton as [-> | ->];
    (split; [simpl; tauto | split; [exact Hactive |]]);
    intros fc st; apply Hkeep.
Qed.

Lemma quantity_buttons_spare_deleted_items_witness :
  isDeleted (mkItem "2" "基围虾" 20 "只" SEAFOOD (0 - day_ms * 0) false) = false.
Proof.
  apply (quantity_buttons_spare_deleted_items
           (demoData 0) ALL ""
           (mkItem "2" "基围虾" 20 "只" SEAFOOD (0 - day_ms * 0) false) Plus
           (demoData_unique_ids 0)).
  - vm_compute; tauto.
  - now right.
Defined.

(** ** Days stored and dates *)

Lemma day_ms_value : 1000 * 60 * 60 * 24 = day_ms.
Proof. reflexivity. Qed.

Lemma getDaysStored_bounds added now :
  0 <= getDaysStored added now /\
  getDaysStored added now * day_ms <= elapsed added now
  < (getDaysStored added now + 1) * day_ms.
Proof.
  unfold getDaysStored, elapsed; rewrite day_ms_value; unfold day_ms.
  pose proof (Z.abs_nonneg (now - added)) as Habs.
  generalize dependent (Z.abs (now - added)); intros e He.
  pose proof (Z.div_mod e 86400000 ltac:(lia)) as Hdm.
  pose proof (Z.mod_pos_bound e 86400000 ltac:(lia)) as Hm.
  split; [apply Z.div_pos; lia | lia].
Qed.

(** X17: [getDaysStored] counts the whole days between the two instants,
    whichever comes first: the result [d] is never negative, the elapsed
    time is at least [d] days and less than [d + 1] days, no other number
    has this property, and exchanging the two instants gives the same
    count. *)
Theorem getDaysStored_counts_whole_days :
  forall added now : Z,
    0 <= getDaysStored added now /\
    getDaysStored added now * day_ms <= elapsed added now
    < (getDaysStored added now + 1) * day_ms /\
    (forall d,
        d * day_ms <= elapsed added now < (d + 1) * day_ms ->
        getDaysStored added now = d) /\
    getDaysStored now added = getDaysStored added now.
Proof.
  intros added now.
  destruct (getDaysStored_bounds added now) as [Hpos Hbounds].
  split; [exact Hpos | split; [exact Hbounds | split]].
  - intros d Hd; unfold day_ms in *; nia.
  - unfold getDaysStored; f_equal.
    rewrite <- Z.abs_opp; f_equal; lia.
Qed.

Lemma getDaysStored_counts_whole_days_witness :
  getDaysStored 0 (3 * day_ms + 5) = 3.
Proof.
  apply (proj1 (proj2 (proj2
           (getDaysStored_counts_whole_days 0 (3 * day_ms + 5))))).
  vm_compute; split; [discriminate | reflexivity].
Defined.

(** X18: The colour of a row follows the elapsed time alone: fresh when less
    than 4 days lie between the acquisition and now, medium from 4 days to
    less than 8 days, old from 8 days on; an acquisition date in the future
    counts like one in the past. *)
Theorem freshness_follows_elapsed_time :
  forall added now : Z,
    (getFreshnessColor (getDaysStored added now) = FRESH
     <-> elapsed added now < 4 * day_ms) /\
    (getFreshnessColor (getDaysStored added now) = MEDIUM
     <-> 4 * day_ms <= elapsed added now < 8 * day_ms) /\
    (getFreshnessColor (getDaysStored added now) = OLD
     <-> 8 * day_ms <= elapsed added now).
Proof.
  intros added now.
  destruct (getDaysStored_bounds added now) as [Hpos Hbounds].
  unfold getFreshnessColor, day_ms in *.
  destruct (Z.leb_spec (getDaysStored added now) 3);
    [| destruct (Z.leb_spec (getDaysStored added now) 7)];
    (split; [| split]); split; intros Hres;
    first [reflexivity | discriminate Hres | lia].
Qed.

Lemma string_length_app (a b : string) :
  String.length (a ++ b) = (String.length a + String.length b)%nat.
Proof. induction a as [| c a IH]; simpl; [reflexivity | now rewrite IH]. Qed.

Lemma filler_length n cur c pad :
  String.length (filler n cur (String c pad)) = n.
Proof.
  revert cur; induction n as [| n IH]; intros cur; simpl; [reflexivity |].
  destruct cur; simpl; now rewrite IH.
Qed.

(** With a pad text that is not empty, [padStart] gives a text of the
    target length, or the text itself when it is at least that long; the
    text is the end of the result. *)
Theorem padStart_length :
  forall (s : string) (targetLength : nat) (padString : string),
    padString <> "" ->
    String.length (padStart s targetLength padString)
    = Nat.max targetLength (String.length s) /\
    (exists before,
        padStart s targetLength padString = (before ++ s)%string) /\
    ((targetLength <= String.length s)%nat ->
     padStart s targetLength padString = s).
Proof.
  intros s targetLength padString Hpad.
  destruct padString as [| c pad]; [contradiction |].
  unfold padStart; split; [| split].
  - rewrite string_length_app, filler_length; lia.
  - now eexists.
  - intros Hlong.
    replace (targetLength - String.length s)%nat with 0%nat by lia.
    reflexivity.
Qed.

Lemma padStart_length_witness :
  String.length (padStart "7" 2 "0") = Nat.max 2 (String.length "7").
Proof.
  apply (padStart_length "7" 2 "0"); discriminate.
Defined.

(** A property checked on every number from [lo] to [lo + n - 1] holds on
    that range. *)
Lemma checked_on_range (p : Z -> bool) (lo n : Z) :
  forallb (fun k => p (lo + Z.of_nat k)) (seq 0 (Z.to_nat n)) = true ->
  forall z, lo <= z < lo + n -> p z = true.
Proof.
  intros Hall z Hz; rewrite forallb_forall in Hall.
  replace z with (lo + Z.of_nat (Z.to_nat (z - lo))) by lia.
  apply Hall, in_seq; lia.
Qed.

Lemma year_has_four_digits year :
  1000 <= year <= 9999 -> String.length (String_of_number year) = 4%nat.
Proof.
  intros Hy; apply Nat.eqb_eq.
  apply (checked_on_range
           (fun z => (String.length (String_of_number z) =? 4)%nat)
           1000 9000); [vm_compute; reflexivity | lia].
Qed.

Lemma two_digits_padded n :
  0 <= n <= 99 ->
  String.length (padStart (String_of_number n) 2 "0") = 2%nat.
Proof.
  intros Hn; apply Nat.eqb_eq.
  apply (checked_on_range
           (fun z => (String.length (padStart (String_of_number z) 2 "0")
                      =? 2)%nat)
           0 100); [vm_compute; reflexivity | lia].
Qed.

(** X19: For a four-digit year, a month from January (0) to December (11) and a
    day of the month from 1 to 31, [formatDate] gives eight characters: the
    four digits of the year, the month as two digits counted from 01 and
    the day as two digits. *)
Theorem formatDate_has_eight_characters :
  forall year month day : Z,
    1000 <= year <= 9999 -> 0 <= month <= 11 -> 1 <= day <= 31 ->
    String.length (formatDate year month day) = 8%nat /\
    exists mm dd,
      formatDate year month day = (String_of_number year ++ mm ++ dd)%string /\
      String.length mm = 2%nat /\ String.length dd = 2%nat /\
      (exists pad, mm = (pad ++ String_of_number (month + 1))%string) /\
      (exists pad, dd = (pad ++ String_of_number day)%string).
Proof.
  intros year month day Hy Hm Hd; unfold formatDate; cbv zeta.
  assert (Hmm : String.length (padStart (String_of_number (month + 1)) 2 "0")
                = 2%nat) by (apply two_digits_padded; lia).
  assert (Hdd : String.length (padStart (String_of_number day) 2 "0")
                = 2%nat) by (apply two_digits_padded; lia).
  split.
  - now rewrite !string_length_app, year_has_four_digits, Hmm, Hdd.
  - exists (padStart (String_of_number (month + 1)) 2 "0"),
           (padStart (String_of_number day) 2 "0").
    repeat split; try assumption; unfold padStart; now eexists.
Qed.

Lemma formatDate_has_eight_characters_witness :
  String.length (formatDate 2024 2 5) = 8%nat.
Proof.
  apply (formatDate_has_eight_characters 2024 2 5); lia.
Defined.

(** The fifth of March 2024. *)
Example formatDate_example : formatDate 2024 2 5 = "20240305".
Proof. reflexivity. Qed.
